(** * Video split service: a shallow embedding of [services/v1/video/split.py]
      and of its HTTP handler [routes/v1/video/split.py].

    The Python built-ins the code relies on ([str.split], [str.strip],
    [int], [float], mixed [int]/[float] arithmetic and comparison) are
    modelled first; the two source files follow, function by function.

    Modelling conventions.
    - A Python [str] is a [string] whose characters are the code points
      below 256.
    - A Python [float] is an IEEE-754 binary64 value, a [spec_float] with
      precision 53 and maximal exponent 1024; a Python [int] is a [Z].
    - An exception is a value of [Exn]; code that may raise returns
      [Exn + A].  The digit-count limit that recent interpreters put on
      [int(str)] is not modelled.
    - The local file system is the set of paths that exist, and removing
      a path that exists succeeds.  Downloading, probing, encoding and
      uploading are the answers of a [World]; every argument vector handed
      to [subprocess.run] is recorded in a trace.
    - Logging has no effect and is left out. *)

From Stdlib Require Import ZArith Bool Ascii String List Sorted Lia.
From Stdlib Require Import Floats.SpecFloat.
From stdpp Require Import base option list strings pretty gmap.

Local Open Scope string_scope.
Local Open Scope Z_scope.

(** ** Python strings *)

Module PyStr.

(** [str.isspace] on a single character with code point below 256. *)
Definition is_space (c : ascii) : bool :=
  let n := nat_of_ascii c in
  ((9 <=? n) && (n <=? 13))%nat || ((28 <=? n) && (n <=? 32))%nat
  || (n =? 133)%nat || (n =? 160)%nat.

(** The characters that [int] and [float] skip around a number: the
    spaces of C among the ASCII characters, and the two other spaces
    below 256, which the conversion first replaces by a blank.  The
    separators 28 to 31 are spaces for [str.strip] but not here. *)
Definition is_numeric_space (c : ascii) : bool :=
  let n := nat_of_ascii c in
  ((9 <=? n) && (n <=? 13))%nat || (n =? 32)%nat
  || (n =? 133)%nat || (n =? 160)%nat.

Fixpoint lstrip_by (sp : ascii -> bool) (s : string) : string :=
  match s with
  | String c s' => if sp c then lstrip_by sp s' else s
  | EmptyString => EmptyString
  end.

(** A character is kept when it is not a space or when something is kept
    after it. *)
Fixpoint rstrip_by (sp : ascii -> bool) (s : string) : string :=
  match s with
  | EmptyString => EmptyString
  | String c s' =>
      match rstrip_by sp s' with
      | EmptyString => if sp c then EmptyString else String c EmptyString
      | r => String c r
      end
  end.

(** [s.strip()] *)
Definition strip (s : string) : string := rstrip_by is_space (lstrip_by is_space s).

(** The stripping done inside [int(s)] and [float(s)]. *)
Definition numeric_strip (s : string) : string :=
  rstrip_by is_numeric_space (lstrip_by is_numeric_space s).

(** [s.split(sep)] for a one-character separator: never the empty list. *)
Fixpoint split (sep : ascii) (s : string) : list string :=
  match s with
  | EmptyString => [EmptyString]
  | String c s' =>
      if Ascii.eqb c sep then EmptyString :: split sep s'
      else match split sep s' with
           | p :: ps => String c p :: ps
           | [] => [String c EmptyString]
           end
  end.

Definition is_digit (c : ascii) : bool :=
  let n := nat_of_ascii c in ((48 <=? n) && (n <=? 57))%nat.

Definition digit_value (c : ascii) : Z := Z.of_nat (nat_of_ascii c) - 48.

(** ASCII lower-casing, for the case-insensitive words of [float]. *)
Definition lower (c : ascii) : ascii :=
  let n := nat_of_ascii c in
  if ((65 <=? n) && (n <=? 90))%nat then ascii_of_nat (n + 32) else c.

Fixpoint lower_string (s : string) : string :=
  match s with
  | EmptyString => EmptyString
  | String c s' => String (lower c) (lower_string s')
  end.

End PyStr.

(** ** Python numbers *)

Module PyNum.

Definition float := spec_float.

Definition prec : Z := 53.
Definition emax : Z := 1024.

Inductive num : Type :=
| PyInt (n : Z)
| PyFloat (f : float).

(** *** Digits, with the underscores of PEP 515 *)

(** Underscores are allowed only between two digits; the first argument
    is the previous character. *)
Fixpoint underscores_ok (prev : option ascii) (s : string) : bool :=
  match s with
  | EmptyString =>
      match prev with
      | Some p => negb (Ascii.eqb p "_")
      | None => true
      end
  | String c s' =>
      let prev_digit := match prev with Some p => PyStr.is_digit p | None => false end in
      let prev_under := match prev with Some p => Ascii.eqb p "_" | None => false end in
      (if Ascii.eqb c "_" then prev_digit
       else negb prev_under || PyStr.is_digit c)
      && underscores_ok (Some c) s'
  end.

Fixpoint remove_underscores (s : string) : string :=
  match s with
  | EmptyString => EmptyString
  | String c s' =>
      if Ascii.eqb c "_" then remove_underscores s'
      else String c (remove_underscores s')
  end.

(** The longest prefix of digits, and the rest. *)
Fixpoint span_digits (s : string) : string * string :=
  match s with
  | String c s' =>
      if PyStr.is_digit c
      then let '(d, r) := span_digits s' in (String c d, r)
      else (EmptyString, s)
  | EmptyString => (EmptyString, EmptyString)
  end.

Fixpoint digits_value_from (acc : Z) (s : string) : Z :=
  match s with
  | EmptyString => acc
  | String c s' => digits_value_from (10 * acc + PyStr.digit_value c) s'
  end.

Definition digits_value (s : string) : Z := digits_value_from 0 s.

(** An optional sign: [true] for minus. *)
Definition take_sign (s : string) : bool * string :=
  match s with
  | String "-" s' => (true, s')
  | String "+" s' => (false, s')
  | _ => (false, s)
  end.

(** *** [int(s)], base ten; [None] stands for [ValueError] *)

Definition py_int (s : string) : option Z :=
  let t := PyStr.numeric_strip s in
  let '(neg, body) := take_sign t in
  if underscores_ok None body then
    let '(d, r) := span_digits (remove_underscores body) in
    match d, r with
    | String _ _, EmptyString =>
        Some (if neg then - digits_value d else digits_value d)
    | _, _ => None
    end
  else None.

(** *** [float(s)]; [None] stands for [ValueError] *)

(** The correctly rounded binary64 value of [(-1)^neg * m * 10^e]. *)
Definition of_decimal (neg : bool) (m : Z) (e : Z) : float :=
  match m with
  | Zpos p =>
      if 0 <=? e
      then binary_normalize prec emax
             (if neg then - (m * 10 ^ e) else m * 10 ^ e) 0 neg
      else SFdiv prec emax (S754_finite neg p 0)
             (S754_finite false (Z.to_pos (10 ^ (- e))) 0)
  | _ => S754_zero neg
  end.

(** The exponent part: nothing, or [e] or [E], an optional sign and at
    least one digit. *)
Definition parse_exponent (s : string) : option Z :=
  match s with
  | EmptyString => Some 0
  | String c s' =>
      if Ascii.eqb (PyStr.lower c) "e" then
        let '(neg, body) := take_sign s' in
        let '(d, r) := span_digits body in
        match d, r with
        | String _ _, EmptyString =>
            Some (if neg then - digits_value d else digits_value d)
        | _, _ => None
        end
      else None
  end.

(** Digits, an optional point and digits, with a digit on at least one
    side, then the exponent part. *)
Definition parse_decimal (neg : bool) (s : string) : option float :=
  let '(ip, r1) := span_digits s in
  let '(fp, r2) :=
    match r1 with
    | String "." r => span_digits r
    | _ => (EmptyString, r1)
    end in
  match ip ++ fp with
  | EmptyString => None
  | mant =>
      match parse_exponent r2 with
      | Some ex =>
          Some (of_decimal neg (digits_value mant)
                  (ex - Z.of_nat (String.length fp)))
      | None => None
      end
  end.

Definition parse_inf_or_nan (neg : bool) (s : string) : option float :=
  let w := PyStr.lower_string s in
  if String.eqb w "inf" || String.eqb w "infinity" then Some (S754_infinity neg)
  else if String.eqb w "nan" then Some S754_nan
  else None.

Definition py_float (s : string) : option float :=
  if underscores_ok None s then
    let t := PyStr.numeric_strip (remove_underscores s) in
    let '(neg, body) := take_sign t in
    match parse_decimal neg body with
    | Some f => Some f
    | None => parse_inf_or_nan neg body
    end
  else None.

End PyNum.

(** ** Exceptions *)

Inductive exn_class : Type :=
| ValueError
| OverflowError
| IndexError
| FileNotFoundError
| OtherError (name : string).

#[global] Instance exn_class_eq_dec : EqDecision exn_class.
Proof. solve_decision. Defined.

(** An exception: its class and [str(e)]. *)
Record Exn : Type := mkExn { exn_cls : exn_class; exn_str : string }.

#[global] Instance Exn_eq_dec : EqDecision Exn.
Proof. solve_decision. Defined.

Definition is_raise {A} (r : Exn + A) : bool :=
  match r with inl _ => true | inr _ => false end.

(** ** Mixed arithmetic and comparison *)

Module PyArith.
Import PyNum.

(** [float(n)] for an int: rounded to nearest even, [OverflowError] when
    the rounded value is not finite. *)
Definition int_to_float (n : Z) : Exn + float :=
  match binary_normalize prec emax n 0 false with
  | S754_infinity _ =>
      inl (mkExn OverflowError "int too large to convert to float")
  | f => inr f
  end.

Definition to_float (a : num) : Exn + float :=
  match a with
  | PyInt n => int_to_float n
  | PyFloat f => inr f
  end.

(** [a + b] *)
Definition add (a b : num) : Exn + num :=
  match a, b with
  | PyInt x, PyInt y => inr (PyInt (x + y))
  | _, _ =>
      match to_float a with
      | inl e => inl e
      | inr fa =>
          match to_float b with
          | inl e => inl e
          | inr fb => inr (PyFloat (SFadd prec emax fa fb))
          end
      end
  end.

(** The exact order between a float and an int; [None] for a NaN. *)
Definition compare_float_int (f : float) (n : Z) : option comparison :=
  match f with
  | S754_nan => None
  | S754_infinity s => Some (if s then Lt else Gt)
  | S754_zero _ => Some (0 ?= n)
  | S754_finite s m e =>
      let v := if s then Zneg m else Zpos m in
      Some (if 0 <=? e then (v * 2 ^ e ?= n) else (v ?= n * 2 ^ (- e)))
  end.

Definition compare (a b : num) : option comparison :=
  match a, b with
  | PyInt x, PyInt y => Some (x ?= y)
  | PyFloat x, PyFloat y => SFcompare x y
  | PyFloat x, PyInt y => compare_float_int x y
  | PyInt x, PyFloat y => option_map CompOpp (compare_float_int y x)
  end.

(** [a < b] *)
Definition lt (a b : num) : bool :=
  match compare a b with Some Lt => true | _ => false end.

(** [a > b] *)
Definition gt (a b : num) : bool :=
  match compare a b with Some Gt => true | _ => false end.

(** [a == b] *)
Definition eqb (a b : num) : bool :=
  match compare a b with Some Eq => true | _ => false end.

End PyArith.

(** ** [os.path] on POSIX *)

Module PosixPath.

Definition starts_with_sep (s : string) : bool :=
  match s with String "/" _ => true | _ => false end.

Fixpoint ends_with_sep (s : string) : bool :=
  match s with
  | EmptyString => false
  | String c EmptyString => Ascii.eqb c "/"
  | String _ s' => ends_with_sep s'
  end.

(** [os.path.join(a, b)] *)
Definition join (a b : string) : string :=
  if starts_with_sep b then b
  else if String.eqb a "" || ends_with_sep a then a ++ b
  else a ++ "/" ++ b.

(** The part after the last separator. *)
Definition basename (p : string) : string :=
  List.last (PyStr.split "/" p) "".

Fixpoint strip_leading_dots (s : string) : string :=
  match s with
  | String "." s' => strip_leading_dots s'
  | _ => s
  end.

(** The suffix that starts at the last dot, [""] without a dot. *)
Fixpoint from_last_dot (s : string) : string :=
  match s with
  | EmptyString => EmptyString
  | String c s' =>
      match from_last_dot s' with
      | EmptyString => if Ascii.eqb c "." then s else EmptyString
      | r => r
      end
  end.

(** The second component of [os.path.splitext(p)]: the extension starts
    at the last dot of the base name, leading dots of the base name
    apart. *)
Definition splitext_ext (p : string) : string :=
  from_last_dot (strip_leading_dots (basename p)).

End PosixPath.

(** ** [services/v1/video/split.py]: the timestamp parser *)

Definition invalid_time_format (time_str : string) : Exn :=
  mkExn ValueError
    ("Invalid time format: " ++ time_str ++ ". Expected HH:MM:SS[.mmm]").

(** [int(s)] and [float(s)] as calls that may raise.  The message of their
    own [ValueError] is cut short: [time_to_seconds] replaces it. *)
Definition int_ (s : string) : Exn + Z :=
  match PyNum.py_int s with
  | Some n => inr n
  | None => inl (mkExn ValueError "invalid literal for int() with base 10")
  end.

Definition float_ (s : string) : Exn + PyNum.float :=
  match PyNum.py_float s with
  | Some f => inr f
  | None => inl (mkExn ValueError "could not convert string to float")
  end.

(** The error monad of pure code that may raise. *)
Definition ebind {A B} (r : Exn + A) (k : A -> Exn + B) : Exn + B :=
  match r with
  | inl e => inl e
  | inr a => k a
  end.

Declare Scope exn_scope.
Delimit Scope exn_scope with exn.
Notation "x <-! c ;; k" := (ebind c (fun x => k))
  (at level 100, c at next level, right associativity) : exn_scope.

(** [try: body  except classes as e: h e] for pure code; [None] catches
    [Exception]. *)
Definition catches (classes : option (list exn_class)) (e : Exn) : bool :=
  match classes with
  | None => true
  | Some cs => bool_decide (exn_cls e ∈ cs)
  end.

Definition etry {A} (classes : option (list exn_class))
    (body : Exn + A) (h : Exn -> Exn + A) : Exn + A :=
  match body with
  | inl e => if catches classes e then h e else inl e
  | inr a => inr a
  end.

Definition time_to_seconds (time_str : string) : Exn + PyNum.num :=
  etry (Some [ValueError])
    (match PyStr.split ":" time_str with
     | [hours; minutes; seconds] =>
         (h <-! int_ hours ;;
          m <-! int_ minutes ;;
          s <-! float_ seconds ;;
          PyArith.add (PyNum.PyInt (h * 3600 + m * 60)) (PyNum.PyFloat s))%exn
     | [minutes; seconds] =>
         (m <-! int_ minutes ;;
          s <-! float_ seconds ;;
          PyArith.add (PyNum.PyInt (m * 60)) (PyNum.PyFloat s))%exn
     | _ =>
         (s <-! float_ time_str ;; inr (PyNum.PyFloat s))%exn
     end)
    (fun _ => inl (invalid_time_format time_str)).

(** ** The local file system and the outside world *)

(** The answer of an outside call: what it returns or raises, and what it
    does to the files.  An answer depends on the arguments of the call
    only. *)
Definition Ext (A : Type) : Type := (Exn + A) * (gset string -> gset string).

(** [subprocess.CompletedProcess] with captured text output. *)
Record CompletedProcess : Type := mkProcess {
  returncode : Z;
  stdout : string;
  stderr : string
}.

(** An element of an argument vector: a string, or [str(x)] of a number,
    kept unevaluated. *)
Inductive Arg : Type :=
| Str (s : string)
| StrOf (x : PyNum.num).

Record World : Type := mkWorld {
  LOCAL_STORAGE_PATH : string;                                (* config *)
  uuid4 : string;                                             (* str(uuid.uuid4()) *)
  download_file : string -> string -> Ext string;             (* services.file_management *)
  subprocess_run : list Arg -> Ext CompletedProcess;          (* capture_output, text *)
  upload_file : string -> Ext string                          (* services.cloud_storage *)
}.

(** The machine: the paths that exist, and the argument vectors given to
    [subprocess.run] so far, oldest first. *)
Record Sys : Type := mkSys {
  files : gset string;
  trace : list (list Arg)
}.

(** ** Code that raises and changes state *)

Class HasSys (S : Type) : Type := {
  get_sys : S -> Sys;
  set_sys : Sys -> S -> S
}.

#[global] Instance Sys_HasSys : HasSys Sys :=
  {| get_sys := fun s => s; set_sys := fun s _ => s |}.

Section Exec.
Context {S : Type}.

Definition M (A : Type) : Type := S -> (Exn + A) * S.

Definition ret {A} (a : A) : M A := fun s => (inr a, s).

Definition bind {A B} (c : M A) (k : A -> M B) : M B :=
  fun s =>
    match c s with
    | (inr a, s') => k a s'
    | (inl e, s') => (inl e, s')
    end.

(** Pure code that may raise. *)
Definition lift {A} (r : Exn + A) : M A := fun s => (r, s).

(** [try: body  except classes as e: h e] *)
Definition try_except {A} (classes : option (list exn_class))
    (body : M A) (h : Exn -> M A) : M A :=
  fun s =>
    match body s with
    | (inl e, s') => if catches classes e then h e s' else (inl e, s')
    | (inr a, s') => (inr a, s')
    end.

(** [for x in l: body x] *)
Fixpoint for_each {A} (l : list A) (body : A -> M unit) : M unit :=
  match l with
  | [] => ret tt
  | x :: l' => bind (body x) (fun _ => for_each l' body)
  end.

Context `{HasSys S}.

Definition with_files (f : gset string -> gset string) (s : S) : S :=
  set_sys (mkSys (f (files (get_sys s))) (trace (get_sys s))) s.

(** A call to one of the imported services. *)
Definition call {A} (x : Ext A) : M A :=
  fun s => (fst x, with_files (snd x) s).

(** [subprocess.run(cmd, capture_output=True, text=True)] *)
Definition run (w : World) (cmd : list Arg) : M CompletedProcess :=
  fun s =>
    let sys := get_sys s in
    let x := subprocess_run w cmd in
    (fst x, set_sys (mkSys (snd x (files sys)) (trace sys ++ [cmd])) s).

(** [os.remove(p)] *)
Definition os_remove (p : string) : M unit :=
  fun s =>
    if bool_decide (p ∈ files (get_sys s))
    then (inr tt, with_files (fun fs => fs ∖ {[p]}) s)
    else (inl (mkExn FileNotFoundError "No such file or directory"), s).

(** A computation on the machine alone, run inside a larger state. *)
Definition on_sys {A} (c : Sys -> (Exn + A) * Sys) : M A :=
  fun s => let '(r, sys') := c (get_sys s) in (r, set_sys sys' s).

End Exec.

Arguments M : clear implicits.

Declare Scope py_scope.
Delimit Scope py_scope with py.
Notation "x <- c ;; k" := (bind c (fun x => k))
  (at level 100, c at next level, right associativity) : py_scope.
Notation "c ;;; k" := (bind c (fun _ => k))
  (at level 100, right associativity) : py_scope.

(** [enumerate(l)] *)
Definition enumerate {A} (l : list A) : list (nat * A) :=
  zip (seq 0 (length l)) l.

(** ** [services/v1/video/split.py]: [split_video] *)

(** One requested cut, [{"start": ..., "end": ...}]. *)
Record Split : Type := mkSplit {
  split_start : string;
  split_end : string
}.

Inductive Status : Type := ok | error.

#[global] Instance Status_eq_dec : EqDecision Status.
Proof. solve_decision. Defined.

(** An item of [results]: keys ["status"], ["output_file"], ["error"]. *)
Record SegmentResult : Type := mkResult {
  status : Status;
  output_file : option string;
  error_ : option string
}.

#[global] Instance SegmentResult_eq_dec : EqDecision SegmentResult.
Proof. solve_decision. Defined.

(** An item of [valid_splits]. *)
Definition ValidSplit : Type := nat * PyNum.num * PyNum.num * Split.

Record EncodingSettings : Type := mkSettings {
  video_codec : string;
  video_preset : string;
  video_crf : PyNum.num;
  audio_codec : string;
  audio_bitrate : string
}.

(** The machine and the locals of [split_video] that change. *)
Record Frame : Type := mkFrame {
  fr_sys : Sys;
  results : list SegmentResult;
  valid_splits : list ValidSplit
}.

#[global] Instance Frame_HasSys : HasSys Frame := {|
  get_sys := fr_sys;
  set_sys := fun s fr => mkFrame s (results fr) (valid_splits fr)
|}.

(** [results[i] = r]; [IndexError] out of range. *)
Definition set_result (i : nat) (r : SegmentResult) : M Frame unit :=
  fun fr =>
    if bool_decide (i < length (results fr))%nat
    then (inr tt, mkFrame (fr_sys fr) (<[i := r]> (results fr)) (valid_splits fr))
    else (inl (mkExn IndexError "list assignment index out of range"), fr).

(** [valid_splits.append(v)] *)
Definition append_valid (v : ValidSplit) : M Frame unit :=
  fun fr => (inr tt, mkFrame (fr_sys fr) (results fr) (valid_splits fr ++ [v])).

Definition get_results : M Frame (list SegmentResult) :=
  fun fr => (inr (results fr), fr).

Definition get_valid_splits : M Frame (list ValidSplit) :=
  fun fr => (inr (valid_splits fr), fr).

Definition Unprocessed : SegmentResult :=
  mkResult error None (Some "Unprocessed").

Definition invalid_split_message (split : Split) : string :=
  "Invalid split: start (" ++ split_start split ++ ") must be before end ("
  ++ split_end split ++ ") within duration".

Section SplitVideo.
Variable w : World.
Variable settings : EncodingSettings.

Definition probe_cmd (input_filename : string) : list Arg :=
  [Str "ffprobe"; Str "-v"; Str "error";
   Str "-show_entries"; Str "format=duration";
   Str "-of"; Str "default=noprint_wrappers=1:nokey=1";
   Str input_filename].

(** Lines 119-124: the duration, with its fallback. *)
Definition parse_duration (duration_result : CompletedProcess)
    : Exn + PyNum.num :=
  etry (Some [ValueError; IndexError])
    (file_duration <-! float_ (PyStr.strip (stdout duration_result)) ;;
     inr (PyNum.PyFloat file_duration))%exn
    (fun _ => inr (PyNum.PyInt 86400)).

(** Lines 134-139: the two clamps. *)
Definition normalize_start (start_seconds : PyNum.num) : PyNum.num :=
  if PyArith.lt start_seconds (PyNum.PyInt 0) then PyNum.PyInt 0
  else start_seconds.

Definition normalize_end (file_duration end_seconds : PyNum.num) : PyNum.num :=
  if PyArith.gt end_seconds file_duration then file_duration
  else end_seconds.

(** Lines 129-156: the body of the validation loop. *)
Definition validate_split (file_duration : PyNum.num)
    (item : nat * Split) : M Frame unit :=
  let '(i, split) := item in
  try_except (Some [ValueError])
    (start_seconds <- lift (time_to_seconds (split_start split)) ;;
     end_seconds <- lift (time_to_seconds (split_end split)) ;;
     let start_seconds := normalize_start start_seconds in
     let end_seconds := normalize_end file_duration end_seconds in
     if PyArith.lt start_seconds end_seconds
     then append_valid (i, start_seconds, end_seconds, split)
     else set_result i
            (mkResult error None (Some (invalid_split_message split))))%py
    (fun e => set_result i (mkResult error None (Some (exn_str e)))).

Variable job_id : string.

Definition output_filename_of (ext : string) (split_index : nat) : string :=
  PosixPath.join (LOCAL_STORAGE_PATH w)
    (job_id ++ "_split_" ++ pretty (split_index + 1)%nat ++ ext).

Definition encode_cmd (input_filename output_filename : string)
    (start_seconds end_seconds : PyNum.num) : list Arg :=
  [Str "ffmpeg";
   Str "-i"; Str input_filename;
   Str "-ss"; StrOf start_seconds;
   Str "-to"; StrOf end_seconds;
   Str "-c:v"; Str (video_codec settings);
   Str "-preset"; Str (video_preset settings);
   Str "-crf"; StrOf (video_crf settings);
   Str "-c:a"; Str (audio_codec settings);
   Str "-b:a"; Str (audio_bitrate settings);
   Str "-avoid_negative_ts"; Str "make_zero";
   Str output_filename].

(** Lines 186-200: the result recorded for a finished encoder process. *)
Definition encode_result (output_filename : string)
    (process : CompletedProcess) : SegmentResult :=
  if negb (returncode process =? 0)
  then mkResult error None
         (Some ("FFmpeg error: " ++ PyStr.strip (stderr process)))
  else mkResult ok (Some output_filename) None.

(** Lines 166-200: the body of the encoding loop. *)
Definition encode_split (input_filename ext : string)
    (v : ValidSplit) : M Frame unit :=
  let '(split_index, start_seconds, end_seconds, split_data) := v in
  let output_filename := output_filename_of ext split_index in
  let cmd := encode_cmd input_filename output_filename start_seconds end_seconds in
  (process <- run w cmd ;;
   set_result split_index (encode_result output_filename process))%py.

(** Lines 127-203: from the validation loop to the [return]. *)
Definition split_video_segments (splits : list Split)
    (input_filename ext : string) (file_duration : PyNum.num)
    : M Frame (list SegmentResult * string) :=
  (for_each (enumerate splits) (validate_split file_duration) ;;;
   vs <- get_valid_splits ;;
   match vs with
   | [] =>
       rs <- get_results ;; ret (rs, input_filename)
   | _ =>
       for_each vs (encode_split input_filename ext) ;;;
       rs <- get_results ;; ret (rs, input_filename)
   end)%py.

(** Lines 106-203: the body of the outer [try]. *)
Definition split_video_try (splits : list Split) (input_filename : string)
    : M Frame (list SegmentResult * string) :=
  let ext := PosixPath.splitext_ext input_filename in
  (duration_result <- run w (probe_cmd input_filename) ;;
   file_duration <- lift (parse_duration duration_result) ;;
   split_video_segments splits input_filename ext file_duration)%py.

(** Lines 209-218: the clean-up of the [except] clause.
    [remove_if_exists p] is [if os.path.exists(p): os.remove(p)]. *)
Definition remove_if_exists (p : string) (fs : gset string) : gset string :=
  if bool_decide (p ∈ fs) then fs ∖ {[p]} else fs.

Definition cleanup_output (fs : gset string) (r : SegmentResult) : gset string :=
  if bool_decide (status r = ok) then
    match output_file r with
    | Some of_ =>
        if negb (String.eqb of_ "") then remove_if_exists of_ fs else fs
    | None => fs
    end
  else fs.

Definition cleanup (input_filename : string) (rs : list SegmentResult)
    (fs : gset string) : gset string :=
  fold_left cleanup_output rs (remove_if_exists input_filename fs).

End SplitVideo.

(** [job_id], or a fresh one when it is [None] or empty. *)
Definition effective_job_id (w : World) (job_id : option string) : string :=
  match job_id with
  | Some j => if String.eqb j "" then uuid4 w else j
  | None => uuid4 w
  end.

Definition input_prefix (w : World) (job_id : string) : string :=
  PosixPath.join (LOCAL_STORAGE_PATH w) (job_id ++ "_input").

(** [split_video(video_url, splits, job_id, ...)] *)
Definition split_video (w : World) (video_url : string) (splits : list Split)
    (job_id : option string) (settings : EncodingSettings)
    : M Sys (list SegmentResult * string) :=
  fun sys =>
    let job_id := effective_job_id w job_id in
    match call (download_file w video_url (input_prefix w job_id)) sys with
    | (inl e, sys1) => (inl e, sys1)
    | (inr input_filename, sys1) =>
        let results0 := map (fun _ => Unprocessed) splits in
        match split_video_try w settings job_id splits input_filename
                (mkFrame sys1 results0 []) with
        | (inr r, fr) => (inr r, fr_sys fr)
        | (inl e, fr) =>
            (inl e,
             mkSys (cleanup input_filename (results fr) (files (fr_sys fr)))
                   (trace (fr_sys fr)))
        end
    end.

(** ** [routes/v1/video/split.py]: the handler [video_split] *)

(** The validated request body; the optional keys are read with
    [data.get(key, default)]. *)
Record RequestData : Type := mkData {
  d_video_url : string;
  d_splits : list Split;
  d_video_codec : option string;
  d_video_preset : option string;
  d_video_crf : option PyNum.num;
  d_audio_codec : option string;
  d_audio_bitrate : option string
}.

(** An item of [response].  A key that is absent is [None]; the value of
    ["error"] may itself be Python's [None]. *)
Record ResponseItem : Type := mkItem {
  item_index : nat;
  item_start : string;
  item_end : string;
  item_file_url : option string;
  item_error : option (option string)
}.

(** What the handler returns first: the response list, or [str(e)]. *)
Inductive Payload : Type :=
| Response (items : list ResponseItem)
| Message (msg : string).

Definition HandlerResult : Type := Payload * string * Z.

(** The machine and the local [response]. *)
Record HandlerFrame : Type := mkHandlerFrame {
  h_sys : Sys;
  response : list ResponseItem
}.

#[global] Instance HandlerFrame_HasSys : HasSys HandlerFrame := {|
  get_sys := h_sys;
  set_sys := fun s fr => mkHandlerFrame s (response fr)
|}.

(** [response.append(item)] *)
Definition append_response (item : ResponseItem) : M HandlerFrame unit :=
  fun fr => (inr tt, mkHandlerFrame (h_sys fr) (response fr ++ [item])).

Definition get_response : M HandlerFrame (list ResponseItem) :=
  fun fr => (inr (response fr), fr).

(** [l[i]]; [IndexError] out of range. *)
Definition list_get {S A} (l : list A) (i : nat) : M S A :=
  match l !! i with
  | Some x => ret x
  | None => lift (inl (mkExn IndexError "list index out of range"))
  end.

(** Truth value of [r.get("output_file")]. *)
Definition truthy (o : option string) : bool :=
  match o with
  | Some s => negb (String.eqb s "")
  | None => false
  end.

Section VideoSplit.
Variable w : World.

Definition settings_of (data : RequestData) : EncodingSettings :=
  mkSettings
    (default "libx264" (d_video_codec data))
    (default "medium" (d_video_preset data))
    (default (PyNum.PyInt 23) (d_video_crf data))
    (default "aac" (d_audio_codec data))
    (default "128k" (d_audio_bitrate data)).

(** Lines 93-103: upload one output and remove the local file. *)
Definition upload_output (item : ResponseItem) (path : string)
    : M HandlerFrame ResponseItem :=
  try_except None
    (cloud_url <- call (upload_file w path) ;;
     try_except None (os_remove path) (fun _ => ret tt) ;;;
     ret (mkItem (item_index item) (item_start item) (item_end item)
            (Some cloud_url) (item_error item)))%py
    (fun e =>
       ret (mkItem (item_index item) (item_start item) (item_end item)
              (item_file_url item) (Some (Some ("Upload failed: " ++ exn_str e))))).

(** Lines 91-106: the body of the loop over [enumerate(results)]. *)
Definition respond (splits : list Split) (entry : nat * SegmentResult)
    : M HandlerFrame unit :=
  let '(idx, r) := entry in
  (split <- list_get splits idx ;;
   let item := mkItem idx (split_start split) (split_end split) None None in
   item <- (if bool_decide (status r = ok) && truthy (output_file r)
            then upload_output item (default "" (output_file r))
            else ret (mkItem idx (split_start split) (split_end split)
                        None (Some (error_ r)))) ;;
   append_response item)%py.

(** Lines 73-116: the body of the handler's [try]. *)
Definition video_split_try (job_id : string) (data : RequestData)
    : M HandlerFrame HandlerResult :=
  let splits := d_splits data in
  (returned <-
     on_sys (split_video w (d_video_url data) splits (Some job_id)
               (settings_of data)) ;;
   let '(rs, input_filename) := returned in
   for_each (enumerate rs) (respond splits) ;;;
   try_except None (os_remove input_filename) (fun _ => ret tt) ;;;
   resp <- get_response ;;
   ret (Response resp, "/v1/video/split", 200))%py.

(** [video_split(job_id, data)] *)
Definition video_split (job_id : string) (data : RequestData)
    : Sys -> HandlerResult * Sys :=
  fun sys =>
    match video_split_try job_id data (mkHandlerFrame sys []) with
    | (inr r, fr) => (r, h_sys fr)
    | (inl e, fr) => ((Message (exn_str e), "/v1/video/split", 500), h_sys fr)
    end.

End VideoSplit.

(** * Vocabulary of the statements *)

(** ** What validation decides for one request

    A reading of lines 129-156 as a function of the request alone; the
    loop body is shown to follow it in [validate_split_verdict]. *)

Inductive Verdict : Type :=
| Accepted (start_seconds end_seconds : PyNum.num)
| Rejected (r : SegmentResult)
| Escapes (e : Exn).

Definition error_result (msg : string) : SegmentResult :=
  mkResult error None (Some msg).

Definition verdict_of_exn (e : Exn) : Verdict :=
  if catches (Some [ValueError]) e then Rejected (error_result (exn_str e))
  else Escapes e.

Definition verdict (file_duration : PyNum.num) (split : Split) : Verdict :=
  match time_to_seconds (split_start split) with
  | inl e => verdict_of_exn e
  | inr s =>
      match time_to_seconds (split_end split) with
      | inl e => verdict_of_exn e
      | inr e =>
          if PyArith.lt (normalize_start s) (normalize_end file_duration e)
          then Accepted (normalize_start s) (normalize_end file_duration e)
          else Rejected (error_result (invalid_split_message split))
      end
  end.

(** The accepted requests among [items], in order. *)
Definition accepted (file_duration : PyNum.num) (items : list (nat * Split))
    : list ValidSplit :=
  omap (fun item : nat * Split =>
          match verdict file_duration item.2 with
          | Accepted s e => Some (item.1, s, e, item.2)
          | _ => None
          end) items.

Definition vs_index (v : ValidSplit) : nat := v.1.1.1.

(** ** Runs of the external programs *)

(** The machine after one [subprocess.run]. *)
Definition after_run (w : World) (sys : Sys) (cmd : list Arg) : Sys :=
  mkSys (snd (subprocess_run w cmd) (files sys)) (trace sys ++ [cmd]).

(** The command built for an accepted request. *)
Definition cmd_of (w : World) (settings : EncodingSettings)
    (job_id input_filename ext : string) (v : ValidSplit) : list Arg :=
  encode_cmd settings input_filename
    (output_filename_of w job_id ext (vs_index v)) v.1.1.2 v.1.2.

(** What is recorded for it once the encoder has finished. *)
Definition recorded (w : World) (job_id ext : string)
    (v : ValidSplit) (p : CompletedProcess) : SegmentResult :=
  encode_result (output_filename_of w job_id ext (vs_index v)) p.

(** A result that records an encoded output. *)
Definition ok_output (w : World) (job_id ext : string) (r : SegmentResult) : Prop :=
  exists j, r = mkResult ok (Some (output_filename_of w job_id ext j)) None.

(** What happens to request [i]: the result recorded for it, or the
    exception that leaves [split_video] while it is processed. *)
Definition segment_outcome (w : World) (settings : EncodingSettings)
    (job_id input_filename ext : string) (file_duration : PyNum.num)
    (i : nat) (split : Split) : Exn + SegmentResult :=
  match verdict file_duration split with
  | Accepted s e =>
      let output_filename := output_filename_of w job_id ext i in
      match fst (subprocess_run w
                   (encode_cmd settings input_filename output_filename s e)) with
      | inl x => inl x
      | inr p => inr (encode_result output_filename p)
      end
  | Rejected r => inr r
  | Escapes x => inl x
  end.

(** The duration that [parse_duration] settles on. *)
Definition duration_of (p : CompletedProcess) : PyNum.num :=
  match PyNum.py_float (PyStr.strip (stdout p)) with
  | Some f => PyNum.PyFloat f
  | None => PyNum.PyInt 86400
  end.

(** The commands of the accepted requests, in order. *)
Definition encode_cmds (w : World) (settings : EncodingSettings)
    (job_id input_filename : string) (file_duration : PyNum.num)
    (splits : list Split) : list (list Arg) :=
  map (cmd_of w settings job_id input_filename (PosixPath.splitext_ext input_filename))
    (accepted file_duration (enumerate splits)).

(** The answer of the download, and the machine after it. *)
Definition download_of (w : World) (video_url : string)
    (job_id : option string) : Ext string :=
  download_file w video_url (input_prefix w (effective_job_id w job_id)).

Definition acquired (w : World) (video_url : string) (job_id : option string)
    (sys : Sys) : Sys :=
  mkSys (snd (download_of w video_url job_id) (files sys)) (trace sys).

(** The locals when the outer [try] starts. *)
Definition frame0 (w : World) (video_url : string) (splits : list Split)
    (job_id : option string) (sys : Sys) : Frame :=
  mkFrame (acquired w video_url job_id sys) (map (fun _ => Unprocessed) splits) [].

(** A timestamp whose parsing returns a value or raises the [ValueError]
    that the validation loop catches. *)
Definition parse_is_local (time_str : string) : Prop :=
  match time_to_seconds time_str with
  | inr _ => True
  | inl e => exn_cls e = ValueError
  end.

(** What the validation loop does with a timestamp that does not parse. *)
Definition on_parse_error (i : nat) (e : Exn) : M Frame unit :=
  if catches (Some [ValueError]) e
  then set_result i (mkResult error None (Some (exn_str e)))
  else lift (inl e).

(** The response item built for request [idx] from its result. *)
Definition response_item (w : World) (idx : nat) (split : Split)
    (r : SegmentResult) : ResponseItem :=
  if bool_decide (status r = ok) && truthy (output_file r) then
    match fst (upload_file w (default "" (output_file r))) with
    | inr cloud_url =>
        mkItem idx (split_start split) (split_end split) (Some cloud_url) None
    | inl e =>
        mkItem idx (split_start split) (split_end split) None
          (Some (Some ("Upload failed: " ++ exn_str e)))
    end
  else mkItem idx (split_start split) (split_end split) None (Some (error_ r)).

(** ** Two worlds that differ in one answer *)

#[global] Instance spec_float_eq_dec : EqDecision spec_float.
Proof. solve_decision. Defined.

#[global] Instance num_eq_dec : EqDecision PyNum.num.
Proof. solve_decision. Defined.

#[global] Instance Arg_eq_dec : EqDecision Arg.
Proof. solve_decision. Defined.

(** The world [w], except that [subprocess.run] answers [x] to [cmd]. *)
Definition with_run_answer (w : World) (cmd : list Arg)
    (x : Ext CompletedProcess) : World :=
  mkWorld (LOCAL_STORAGE_PATH w) (uuid4 w) (download_file w)
    (fun c => if decide (c = cmd) then x else subprocess_run w c)
    (upload_file w).

(** ** Literals and worked examples *)

(** The binary64 value nearest to [m * 2^e]; exact for the literals used
    below. *)
Definition f64 (m e : Z) : PyNum.float :=
  binary_normalize PyNum.prec PyNum.emax m e false.

Definition arg_is (a : Arg) (s : string) : bool :=
  match a with
  | Str t => String.eqb t s
  | StrOf _ => false
  end.

(** A world for the worked examples: the download yields
    ["<prefix>.mp4"], the probe prints a duration of one minute, the
    encoder fails on the second segment only, uploads succeed. *)
Definition example_run (cmd : list Arg) : Ext CompletedProcess :=
  if arg_is (List.hd (Str "") cmd) "ffprobe" then
    (inr (mkProcess 0 "60.000000" ""), fun fs => fs)
  else
    let out := List.last cmd (Str "") in
    if arg_is out "/tmp/job_split_2.mp4" then
      (inr (mkProcess 1 "" " moov atom not found "), fun fs => fs)
    else
      (inr (mkProcess 0 "" ""),
       fun fs => match out with Str o => {[o]} ∪ fs | StrOf _ => fs end).

Definition example_world : World :=
  mkWorld "/tmp" "0b5e3c4e"
    (fun _ prefix => (inr (prefix ++ ".mp4"), fun fs => {[prefix ++ ".mp4"]} ∪ fs))
    example_run
    (fun path => (inr ("https://storage.example/" ++ path), fun fs => fs)).

Definition example_settings : EncodingSettings :=
  mkSettings "libx264" "medium" (PyNum.PyInt 23) "aac" "128k".

Definition example_sys : Sys := mkSys ∅ [].

Definition example_splits : list Split :=
  [mkSplit "0" "10"; mkSplit "-5" "20"; mkSplit "10" "5";
   mkSplit "abc" "5"; mkSplit "50" "1:40"].

(** The encoder cannot be started for the second segment. *)
Definition crashing_run (cmd : list Arg) : Ext CompletedProcess :=
  if arg_is (List.last cmd (Str "")) "/tmp/job_split_2.mp4"
  then (inl (mkExn (OtherError "OSError") "Cannot allocate memory"), fun fs => fs)
  else example_run cmd.

Definition crashing_world : World :=
  mkWorld (LOCAL_STORAGE_PATH example_world) (uuid4 example_world)
    (download_file example_world) crashing_run (upload_file example_world).

(** ** Shapes of results and of response items *)

(** A slot of a returned list: the encoded output of request [i], or an
    error with a message other than the initial "Unprocessed". *)
Definition settled_result (w : World) (job_id ext : string) (i : nat)
    (r : SegmentResult) : Prop :=
  r = mkResult ok (Some (output_filename_of w job_id ext i)) None \/
  exists msg, r = mkResult error None (Some msg) /\ msg <> "Unprocessed".

(** The output of [r] is the file at [path], and its upload returns. *)
Definition uploaded (w : World) (r : SegmentResult) (path : string) : Prop :=
  status r = ok /\ output_file r = Some path /\ path <> "" /\
  exists cloud_url, fst (upload_file w path) = inr cloud_url.

(** [n] zeros. *)
Fixpoint zeros (n : nat) : string :=
  match n with
  | O => EmptyString
  | S n' => String "0" (zeros n')
  end.

(** The storage service refuses the first output. *)
Definition refusing_world : World :=
  mkWorld (LOCAL_STORAGE_PATH example_world) (uuid4 example_world)
    (download_file example_world) example_run
    (fun path =>
       if String.eqb path "/tmp/job_split_1.mp4"
       then (inl (mkExn (OtherError "ConnectionError") "storage unreachable"),
             fun fs => fs)
       else upload_file example_world path).

(** [c in s] *)
Fixpoint contains (c : ascii) (s : string) : bool :=
  match s with
  | EmptyString => false
  | String d s' => Ascii.eqb d c || contains c s'
  end.

(** * Properties *)

(** ** Lists and strings *)

Lemma enumerate_lookup {A} (l : list A) (k : nat) :
  enumerate l !! k = (fun x => (k, x)) <$> l !! k.
Proof.
  unfold enumerate. rewrite lookup_zip_with.
  destruct (l !! k) as [x|] eqn:Hk; simpl.
  - rewrite lookup_seq_lt by (eapply lookup_lt_Some; eauto). reflexivity.
  - destruct (seq 0 (length l) !! k); reflexivity.
Qed.

Lemma zip_seq_cons {A} (i0 : nat) (x : A) (l : list A) :
  zip (seq i0 (length (x :: l))) (x :: l) = (i0, x) :: zip (seq (S i0) (length l)) l.
Proof. reflexivity. Qed.

Lemma string_app_length (s t : string) :
  String.length (s ++ t) = (String.length s + String.length t)%nat.
Proof. induction s as [|c s IH]; simpl; [reflexivity | now rewrite IH]. Qed.

Lemma string_app_inv_tail (s1 s2 t : string) : s1 ++ t = s2 ++ t -> s1 = s2.
Proof.
  revert s2. induction s1 as [|c s1 IH]; intros [|d s2] Heq; simpl in *.
  - reflexivity.
  - apply (f_equal String.length) in Heq.
    rewrite !string_app_length in Heq. simpl in Heq. lia.
  - apply (f_equal String.length) in Heq.
    rewrite !string_app_length in Heq. simpl in Heq. lia.
  - injection Heq as -> Heq. f_equal. now apply IH.
Qed.

Lemma string_app_inv_head (s t1 t2 : string) : s ++ t1 = s ++ t2 -> t1 = t2.
Proof.
  induction s as [|c s IH]; simpl; intros Heq; [assumption|].
  injection Heq as Heq. auto.
Qed.

(** ** The monad *)

Lemma bind_inr {S A B} (c : M S A) (k : A -> M S B) s a s' :
  c s = (inr a, s') -> bind c k s = k a s'.
Proof. unfold bind. now intros ->. Qed.

Lemma bind_inl {S A B} (c : M S A) (k : A -> M S B) s e s' :
  c s = (inl e, s') -> bind c k s = (inl e, s').
Proof. unfold bind. now intros ->. Qed.

(** ** Output names *)

Section Names.
Variable w : World.
Variable job_id : string.

Lemma output_filename_of_inj ext i j :
  output_filename_of w job_id ext i = output_filename_of w job_id ext j -> i = j.
Proof.
  unfold output_filename_of, PosixPath.join.
  set (a := LOCAL_STORAGE_PATH w).
  assert (Hst : forall t u,
    PosixPath.starts_with_sep (job_id ++ "_split_" ++ t)
    = PosixPath.starts_with_sep (job_id ++ "_split_" ++ u)).
  { intros t u. destruct job_id; reflexivity. }
  rewrite (Hst (pretty (j + 1)%nat ++ ext) (pretty (i + 1)%nat ++ ext)).
  assert (Hcore : job_id ++ "_split_" ++ pretty (i + 1)%nat ++ ext
                  = job_id ++ "_split_" ++ pretty (j + 1)%nat ++ ext -> i = j).
  { intros Heq. apply string_app_inv_head in Heq.
    apply string_app_inv_head in Heq. apply string_app_inv_tail in Heq.
    apply (inj pretty) in Heq. lia. }
  destruct (PosixPath.starts_with_sep _); [exact Hcore|].
  destruct (_ || _); intros Heq; apply string_app_inv_head in Heq.
  - auto.
  - apply (string_app_inv_head "/") in Heq. auto.
Qed.

Lemma output_filename_of_nonempty ext i : output_filename_of w job_id ext i <> "".
Proof.
  unfold output_filename_of, PosixPath.join.
  assert (Hne : forall t, job_id ++ "_split_" ++ t <> "").
  { intros t. destruct job_id; discriminate. }
  assert (Happ : forall s t : string, t <> "" -> s ++ t <> "").
  { intros s t Ht. destruct s; simpl; [assumption | discriminate]. }
  destruct (PosixPath.starts_with_sep _); [apply Hne|].
  destruct (_ || _); apply Happ; [apply Hne|]. discriminate.
Qed.

End Names.

(** ** The validation loop *)

Section Validation.
Variable file_duration : PyNum.num.

Lemma validate_split_verdict i split fr :
  (i < length (results fr))%nat ->
  validate_split file_duration (i, split) fr =
    match verdict file_duration split with
    | Accepted s e =>
        (inr tt, mkFrame (fr_sys fr) (results fr)
                   (valid_splits fr ++ [(i, s, e, split)])%list)
    | Rejected r =>
        (inr tt, mkFrame (fr_sys fr) (<[i := r]> (results fr)) (valid_splits fr))
    | Escapes e => (inl e, fr)
    end.
Proof.
  intros Hi.
  assert (Hset : forall r, set_result i r fr
            = (inr tt, mkFrame (fr_sys fr) (<[i := r]> (results fr)) (valid_splits fr))).
  { intros r. unfold set_result. now rewrite bool_decide_eq_true_2. }
  unfold validate_split, verdict, verdict_of_exn, try_except, bind, lift.
  destruct (time_to_seconds (split_start split)) as [e|s].
  { destruct (catches _ e); [apply Hset | reflexivity]. }
  destruct (time_to_seconds (split_end split)) as [e|en].
  { destruct (catches _ e); [apply Hset | reflexivity]. }
  destruct (PyArith.lt _ _); [reflexivity|].
  rewrite Hset. reflexivity.
Qed.

Lemma accepted_cons i split items :
  accepted file_duration ((i, split) :: items) =
    match verdict file_duration split with
    | Accepted s e => (i, s, e, split) :: accepted file_duration items
    | _ => accepted file_duration items
    end.
Proof. unfold accepted. simpl. destruct (verdict _ _); reflexivity. Qed.

Lemma validation_loop splits : forall i0 fr,
  (i0 + length splits <= length (results fr))%nat ->
  match for_each (zip (seq i0 (length splits)) splits)
          (validate_split file_duration) fr with
  | (inr _, fr') =>
      fr_sys fr' = fr_sys fr /\
      valid_splits fr' = (valid_splits fr
         ++ accepted file_duration (zip (seq i0 (length splits)) splits))%list /\
      length (results fr') = length (results fr) /\
      (forall j, (j < i0 \/ i0 + length splits <= j)%nat ->
                 results fr' !! j = results fr !! j) /\
      (forall k split, splits !! k = Some split ->
         match verdict file_duration split with
         | Accepted _ _ => results fr' !! (i0 + k)%nat = results fr !! (i0 + k)%nat
         | Rejected r => results fr' !! (i0 + k)%nat = Some r
         | Escapes _ => False
         end)
  | (inl e, fr') =>
      fr_sys fr' = fr_sys fr /\
      (forall r, r ∈ results fr' -> r ∈ results fr \/ status r = error) /\
      exists k split, splits !! k = Some split /\
                      verdict file_duration split = Escapes e
  end.
Proof.
  induction splits as [|split splits IH]; intros i0 fr Hlen.
  - simpl. rewrite app_nil_r. repeat split; try reflexivity.
    intros k split Hk. rewrite lookup_nil in Hk. discriminate.
  - rewrite zip_seq_cons. cbn [for_each]. unfold bind at 1.
    simpl in Hlen.
    rewrite validate_split_verdict by lia.
    rewrite accepted_cons.
    destruct (verdict file_duration split) as [s e|r|e] eqn:Hv.
    + (* accepted *)
      set (fr1 := mkFrame _ _ _).
      specialize (IH (S i0) fr1 ltac:(simpl; lia)).
      destruct (for_each _ _ fr1) as [[e'|[]] fr'].
      * destruct IH as (Hsys & Hrs & k & sp & Hk & Hesc).
        split; [exact Hsys|]. split; [exact Hrs|].
        exists (S k), sp. split; assumption.
      * destruct IH as (Hsys & Hvs & Hl & Hout & Hin).
        split; [exact Hsys|]. split.
        { rewrite Hvs. simpl. rewrite <- app_assoc. reflexivity. }
        split; [exact Hl|]. split.
        { intros j Hj. simpl in Hj. apply Hout. lia. }
        intros [|k] sp Hk; simpl in Hk.
        { injection Hk as <-. rewrite Hv.
          rewrite Nat.add_0_r. apply Hout. lia. }
        specialize (Hin k sp Hk).
        replace (i0 + S k)%nat with (S i0 + k)%nat by lia. exact Hin.
    + (* rejected *)
      set (fr1 := mkFrame _ _ _).
      assert (Hl1 : length (results fr1) = length (results fr))
        by (simpl; apply length_insert).
      specialize (IH (S i0) fr1 ltac:(rewrite Hl1; lia)).
      destruct (for_each _ _ fr1) as [[e'|[]] fr'].
      * destruct IH as (Hsys & Hrs & k & sp & Hk & Hesc).
        split; [exact Hsys|]. split.
        { intros x Hx. destruct (Hrs x Hx) as [Hx1|Hx1]; [|now right].
          simpl in Hx1. apply list_elem_of_lookup in Hx1 as [j Hj].
          destruct (decide (j = i0)) as [->|Hne].
          - rewrite list_lookup_insert_eq in Hj by lia.
            injection Hj as <-. right.
            unfold verdict, verdict_of_exn in Hv.
            repeat match type of Hv with
                   | context [match ?x with _ => _ end] => destruct x
                   end; try discriminate; injection Hv as <-; reflexivity.
          - rewrite list_lookup_insert_ne in Hj by congruence.
            left. apply list_elem_of_lookup. eauto. }
        exists (S k), sp. split; assumption.
      * destruct IH as (Hsys & Hvs & Hl & Hout & Hin).
        split; [exact Hsys|]. split; [exact Hvs|].
        split; [congruence|]. split.
        { intros j Hj. simpl in Hj. rewrite Hout by lia. simpl.
          apply list_lookup_insert_ne. lia. }
        intros [|k] sp Hk; simpl in Hk.
        { injection Hk as <-. rewrite Hv. rewrite Nat.add_0_r.
          rewrite Hout by lia. simpl. apply list_lookup_insert_eq. lia. }
        specialize (Hin k sp Hk).
        replace (i0 + S k)%nat with (S i0 + k)%nat by lia.
        destruct (verdict file_duration sp); try exact Hin.
        rewrite Hin. simpl. apply list_lookup_insert_ne. lia.
    + (* an exception leaves the loop *)
      split; [reflexivity|]. split; [now left|].
      exists 0%nat, split. split; [reflexivity | exact Hv].
Qed.

End Validation.

(** ** The encoding loop *)

Section Encoding.
Variable w : World.
Variable settings : EncodingSettings.
Variable job_id : string.
Variable input_filename ext : string.

Local Abbreviation command_of := (cmd_of w settings job_id input_filename ext).
Local Abbreviation recorded_for := (recorded w job_id ext).
Local Abbreviation is_ok_output := (ok_output w job_id ext).

Lemma recorded_status v p :
  status (recorded_for v p) = error \/ is_ok_output (recorded_for v p).
Proof.
  unfold recorded, encode_result.
  destruct (negb _); [now left | right; eexists; reflexivity].
Qed.

Lemma encode_split_run v fr :
  (vs_index v < length (results fr))%nat ->
  encode_split w settings job_id input_filename ext v fr =
    match fst (subprocess_run w (command_of v)) with
    | inl e =>
        (inl e, mkFrame (after_run w (fr_sys fr) (command_of v))
                  (results fr) (valid_splits fr))
    | inr p =>
        (inr tt, mkFrame (after_run w (fr_sys fr) (command_of v))
                   (<[vs_index v := (recorded w job_id ext) v p]> (results fr))
                   (valid_splits fr))
    end.
Proof.
  intros Hi. destruct v as [[[i s] e] sp].
  unfold encode_split, cmd_of, recorded, vs_index, bind, run; simpl in *.
  destruct (fst (subprocess_run w _)) as [x|p]; [reflexivity|].
  unfold set_result; simpl. now rewrite bool_decide_eq_true_2.
Qed.

Lemma encoding_loop vs : forall fr,
  (forall v, v ∈ vs -> (vs_index v < length (results fr))%nat) ->
  NoDup (map vs_index vs) ->
  match for_each vs (encode_split w settings job_id input_filename ext) fr with
  | (inr _, fr') =>
      fr_sys fr' = fold_left (after_run w) (map command_of vs) (fr_sys fr) /\
      valid_splits fr' = valid_splits fr /\
      length (results fr') = length (results fr) /\
      (forall j, j ∉ map vs_index vs -> results fr' !! j = results fr !! j) /\
      (forall v, v ∈ vs ->
         exists p, fst (subprocess_run w (command_of v)) = inr p /\
                   results fr' !! vs_index v = Some (recorded_for v p))
  | (inl e, fr') =>
      (exists vs1 v vs2,
         vs = (vs1 ++ v :: vs2)%list /\
         fst (subprocess_run w (command_of v)) = inl e /\
         fr_sys fr' = fold_left (after_run w) (map command_of (vs1 ++ [v])%list) (fr_sys fr)) /\
      (forall r, r ∈ results fr' ->
         r ∈ results fr \/ status r = error \/ is_ok_output r)
  end.
Proof.
  induction vs as [|v vs IH]; intros fr Hidx Hnd.
  - simpl. repeat split; try reflexivity.
    intros v Hv. apply elem_of_nil in Hv. contradiction.
  - cbn [for_each]. unfold bind at 1.
    rewrite encode_split_run by (apply Hidx; left).
    apply NoDup_cons in Hnd as [Hnotin Hnd].
    destruct (fst (subprocess_run w (command_of v))) as [e|p] eqn:Hrun.
    + split; [|intros r Hr; now left].
      exists [], v, vs. repeat split; assumption || reflexivity.
    + set (fr1 := mkFrame _ _ _).
      assert (Hl1 : length (results fr1) = length (results fr))
        by (simpl; apply length_insert).
      specialize (IH fr1).
      assert (Hidx1 : forall v0, v0 ∈ vs -> (vs_index v0 < length (results fr1))%nat).
      { intros v0 Hv0. rewrite Hl1. apply Hidx. now right. }
      specialize (IH Hidx1 Hnd).
      destruct (for_each vs _ fr1) as [[e'|[]] fr'].
      * destruct IH as ((vs1 & v1 & vs2 & -> & Hraise & Hsys) & Hrs).
        split.
        { exists (v :: vs1), v1, vs2. repeat split; assumption. }
        intros r Hr. destruct (Hrs r Hr) as [Hr1|Hr1]; [|now right].
        simpl in Hr1. apply list_elem_of_lookup in Hr1 as [j Hj].
        destruct (decide (j = vs_index v)) as [->|Hne].
        -- rewrite list_lookup_insert_eq in Hj by (apply Hidx; left).
           injection Hj as <-. right. apply recorded_status.
        -- rewrite list_lookup_insert_ne in Hj by congruence.
           left. apply list_elem_of_lookup. eauto.
      * destruct IH as (Hsys & Hvs & Hl & Hout & Hin).
        split; [exact Hsys|]. split; [exact Hvs|].
        split; [congruence|]. split.
        { intros j Hj. simpl in Hj. apply not_elem_of_cons in Hj as [Hj1 Hj2].
          rewrite Hout by exact Hj2. simpl.
          apply list_lookup_insert_ne. congruence. }
        intros v0 Hv0. apply elem_of_cons in Hv0 as [->|Hv0].
        -- exists p. split; [exact Hrun|].
           rewrite Hout by exact Hnotin. simpl.
           apply list_lookup_insert_eq. apply Hidx. left.
        -- apply Hin. exact Hv0.
Qed.

End Encoding.

(** ** The accepted requests *)

Section AcceptedFacts.
Variable file_duration : PyNum.num.

Lemma accepted_zip_elem splits : forall i0 v,
  v ∈ accepted file_duration (zip (seq i0 (length splits)) splits) <->
  exists k split s e,
    splits !! k = Some split /\
    verdict file_duration split = Accepted s e /\
    v = ((i0 + k)%nat, s, e, split).
Proof.
  induction splits as [|sp splits IH]; intros i0 v.
  - simpl. split.
    + intros Hv. apply elem_of_nil in Hv. contradiction.
    + intros (k & split & s & e & Hk & _). rewrite lookup_nil in Hk. discriminate.
  - rewrite zip_seq_cons, accepted_cons. split.
    + intros Hv.
      assert (Htail : v ∈ accepted file_duration (zip (seq (S i0) (length splits)) splits) ->
        exists k split s e, (sp :: splits) !! k = Some split /\
          verdict file_duration split = Accepted s e /\ v = ((i0 + k)%nat, s, e, split)).
      { intros Hin. apply IH in Hin as (k & split & s & e & Hk & Hver & ->).
        exists (S k), split, s, e. repeat split; try assumption.
        replace (i0 + S k)%nat with (S i0 + k)%nat by lia. reflexivity. }
      destruct (verdict file_duration sp) as [s e| |] eqn:Hv0; try (now apply Htail).
      apply elem_of_cons in Hv as [->|Hv]; [|now apply Htail].
      exists 0%nat, sp, s, e. repeat split; try assumption.
      rewrite Nat.add_0_r. reflexivity.
    + intros (k & split & s & e & Hk & Hver & ->).
      destruct k as [|k]; simpl in Hk.
      * injection Hk as ->. rewrite Hver. rewrite Nat.add_0_r. left.
      * assert (Hin : ((i0 + S k)%nat, s, e, split)
                      ∈ accepted file_duration (zip (seq (S i0) (length splits)) splits)).
        { apply IH. exists k, split, s, e. repeat split; try assumption.
          replace (i0 + S k)%nat with (S i0 + k)%nat by lia. reflexivity. }
        destruct (verdict file_duration sp); [right|..]; exact Hin.
Qed.

Lemma accepted_elem splits v :
  v ∈ accepted file_duration (enumerate splits) <->
  exists split s e,
    splits !! vs_index v = Some split /\
    verdict file_duration split = Accepted s e /\
    v = (vs_index v, s, e, split).
Proof.
  unfold enumerate. rewrite accepted_zip_elem. split.
  - intros (k & split & s & e & Hk & Hver & ->). exists split, s, e. auto.
  - intros (split & s & e & Hk & Hver & Hv).
    exists (vs_index v), split, s, e. auto.
Qed.

Lemma accepted_zip_NoDup splits : forall i0,
  NoDup (map vs_index (accepted file_duration (zip (seq i0 (length splits)) splits))).
Proof.
  induction splits as [|sp splits IH]; intros i0.
  - simpl. constructor.
  - rewrite zip_seq_cons, accepted_cons.
    destruct (verdict file_duration sp); try apply IH.
    simpl. constructor; [|apply IH].
    intros Hin. apply list_elem_of_fmap in Hin as (v & Hidx & Hin).
    apply accepted_zip_elem in Hin as (k & split & s & e & _ & _ & ->).
    unfold vs_index in Hidx. simpl in Hidx. lia.
Qed.

Lemma accepted_nil splits :
  accepted file_duration (enumerate splits) = [] <->
  forall i split, splits !! i = Some split ->
    forall s e, verdict file_duration split <> Accepted s e.
Proof.
  split.
  - intros Hnil i split Hi s e Hver.
    assert (Hin : (i, s, e, split) ∈ accepted file_duration (enumerate splits)).
    { apply accepted_elem. exists split, s, e. auto. }
    rewrite Hnil in Hin. apply elem_of_nil in Hin. contradiction.
  - intros Hnone. destruct (accepted _ _) as [|v vs] eqn:Hacc; [reflexivity|].
    assert (Hin : v ∈ accepted file_duration (enumerate splits))
      by (rewrite Hacc; left).
    apply accepted_elem in Hin as (split & s & e & Hi & Hver & _).
    exfalso. eapply Hnone; eauto.
Qed.

End AcceptedFacts.

(** ** From the validation loop to the return *)

Section Segments.
Variable w : World.
Variable settings : EncodingSettings.
Variable job_id : string.
Variable input_filename ext : string.
Variable file_duration : PyNum.num.

Local Abbreviation command_of := (cmd_of w settings job_id input_filename ext).
Local Abbreviation outcome :=
  (segment_outcome w settings job_id input_filename ext file_duration).

Lemma split_video_segments_spec splits fr0 :
  length (results fr0) = length splits ->
  valid_splits fr0 = [] ->
  match split_video_segments w settings job_id splits input_filename ext
          file_duration fr0 with
  | (inr (rs, f), fr') =>
      f = input_filename /\ results fr' = rs /\ length rs = length splits /\
      fr_sys fr' = fold_left (after_run w)
                     (map command_of
                        (accepted file_duration (enumerate splits))) (fr_sys fr0) /\
      (forall i split, splits !! i = Some split ->
         exists r, outcome i split = inr r /\ rs !! i = Some r)
  | (inl e, fr') =>
      (exists i split, splits !! i = Some split /\ outcome i split = inl e) /\
      (exists pre, pre `prefix_of` accepted file_duration (enumerate splits) /\
         fr_sys fr' = fold_left (after_run w) (map command_of pre) (fr_sys fr0)) /\
      (forall r, r ∈ results fr' ->
         r ∈ results fr0 \/ status r = error \/ ok_output w job_id ext r)
  end.
Proof.
  intros Hlen Hvs0.
  unfold split_video_segments. unfold bind at 1.
  pose proof (validation_loop file_duration splits 0 fr0 ltac:(lia)) as Hval.
  fold (enumerate splits) in Hval.
  destruct (for_each (enumerate splits) _ fr0) as [[e|[]] fr1].
  { destruct Hval as (Hsys & Hrs & k & split & Hk & Hesc).
    split; [|split].
    - exists k, split. split; [exact Hk|].
      unfold segment_outcome. now rewrite Hesc.
    - exists []. split; [apply prefix_nil | now rewrite Hsys].
    - intros r Hr. destruct (Hrs r Hr); auto. }
  destruct Hval as (Hsys1 & Hvs1 & Hl1 & _ & Hin1).
  rewrite Hvs0 in Hvs1. simpl in Hvs1.
  set (vs := accepted file_duration (enumerate splits)) in *.
  unfold bind at 1, get_valid_splits at 1. rewrite Hvs1.
  assert (Hloop :
    match for_each vs (encode_split w settings job_id input_filename ext) fr1 with
    | (inr _, fr') =>
        length (results fr') = length splits /\
        fr_sys fr' = fold_left (after_run w) (map command_of vs) (fr_sys fr0) /\
        (forall i split, splits !! i = Some split ->
           exists r, outcome i split = inr r /\ results fr' !! i = Some r)
    | (inl e, fr') =>
        (exists i split, splits !! i = Some split /\ outcome i split = inl e) /\
        (exists pre, pre `prefix_of` vs /\
           fr_sys fr' = fold_left (after_run w) (map command_of pre) (fr_sys fr0)) /\
        (forall r, r ∈ results fr' ->
           r ∈ results fr0 \/ status r = error \/ ok_output w job_id ext r)
    end).
  { assert (Hidx : forall v, v ∈ vs -> (vs_index v < length (results fr1))%nat).
    { intros v Hv. apply accepted_elem in Hv as (split & s & e & Hi & _).
      apply lookup_lt_Some in Hi. lia. }
    pose proof (encoding_loop w settings job_id input_filename ext vs fr1 Hidx
                  (accepted_zip_NoDup file_duration splits 0)) as Henc.
    destruct (for_each vs _ fr1) as [[e|[]] fr2].
    - destruct Henc as ((vs1 & v & vs2 & Hsplit & Hraise & Hsys2) & Hrs2).
      split; [|split].
      + assert (Hv : v ∈ vs) by (rewrite Hsplit; apply elem_of_app; right; left).
        apply accepted_elem in Hv as (split & s & en & Hi & Hver & Hveq).
        exists (vs_index v), split. split; [exact Hi|].
        unfold segment_outcome. rewrite Hver.
        unfold cmd_of in Hraise. rewrite Hveq in Hraise. simpl in Hraise.
        unfold vs_index at 1 in Hraise. simpl in Hraise. now rewrite Hraise.
      + exists (vs1 ++ [v])%list. split.
        * rewrite Hsplit. exists vs2. now rewrite <- app_assoc.
        * rewrite Hsys2, Hsys1. reflexivity.
      + intros r Hr. destruct (Hrs2 r Hr) as [Hr1|Hr1]; [|now right].
        apply list_elem_of_lookup in Hr1 as [j Hj].
        assert (Hjlt : (j < length splits)%nat)
          by (apply lookup_lt_Some in Hj; lia).
        apply lookup_lt_is_Some_2 in Hjlt as [sp Hsp].
        specialize (Hin1 j sp Hsp). simpl in Hin1.
        destruct (verdict file_duration sp) as [s en|r'|] eqn:Hver; [| |contradiction].
        * left. apply list_elem_of_lookup. exists j. congruence.
        * right. left. rewrite Hin1 in Hj. injection Hj as <-.
          unfold verdict, verdict_of_exn in Hver.
          repeat match type of Hver with
                 | context [match ?x with _ => _ end] => destruct x
                 end; try discriminate; injection Hver as <-; reflexivity.
    - destruct Henc as (Hsys2 & _ & Hl2 & Hout & Hin).
      split; [congruence|]. split; [now rewrite Hsys2, Hsys1|].
      intros i split Hi. unfold segment_outcome.
      specialize (Hin1 i split Hi). simpl in Hin1.
      destruct (verdict file_duration split) as [s en|r'|] eqn:Hver; [| |contradiction].
      + assert (Hv : (i, s, en, split) ∈ vs).
        { apply accepted_elem. exists split, s, en. auto. }
        destruct (Hin _ Hv) as (p & Hrun & Hres).
        unfold cmd_of, recorded, vs_index in Hrun, Hres. simpl in Hrun, Hres.
        cbv zeta. rewrite Hrun. eauto.
      + exists r'. split; [reflexivity|].
        rewrite Hout; [exact Hin1|].
        intros Hmem. apply list_elem_of_fmap in Hmem as (v & Hvi & Hv).
        apply accepted_elem in Hv as (sp' & s & en & Hi' & Hver' & _).
        rewrite <- Hvi in Hi'. congruence. }
  assert (Hsame : forall fr,
    match vs with
    | [] => (rs <- get_results ;; ret (rs, input_filename))%py
    | _ :: _ =>
        (for_each vs (encode_split w settings job_id input_filename ext) ;;;
         rs <- get_results ;; ret (rs, input_filename))%py
    end fr =
    (for_each vs (encode_split w settings job_id input_filename ext) ;;;
     rs <- get_results ;; ret (rs, input_filename))%py fr).
  { intros fr. destruct vs; reflexivity. }
  rewrite Hsame. unfold bind at 1.
  destruct (for_each vs _ fr1) as [[e|[]] fr2]; [exact Hloop|].
  destruct Hloop as (Hl & Hsys & Hres).
  unfold bind, get_results, ret. simpl. repeat split; assumption.
Qed.

End Segments.

(** ** The body of the outer [try], and [split_video] *)

Lemma parse_duration_duration_of p : parse_duration p = inr (duration_of p).
Proof.
  unfold parse_duration, duration_of, float_, etry, ebind.
  destruct (PyNum.py_float _); reflexivity.
Qed.

Lemma fold_left_after_run_files_trace w cmds : forall sys,
  trace (fold_left (after_run w) cmds sys) = (trace sys ++ cmds)%list.
Proof.
  induction cmds as [|c cmds IH]; intros sys; simpl.
  - now rewrite app_nil_r.
  - rewrite IH. simpl. now rewrite <- app_assoc.
Qed.

Section Try.
Variable w : World.
Variable settings : EncodingSettings.
Variable job_id : string.

Lemma split_video_try_spec splits f fr0 :
  length (results fr0) = length splits ->
  valid_splits fr0 = [] ->
  match split_video_try w settings job_id splits f fr0 with
  | (inr (rs, f'), fr') =>
      exists p,
        fst (subprocess_run w (probe_cmd f)) = inr p /\
        f' = f /\ results fr' = rs /\ length rs = length splits /\
        fr_sys fr' = fold_left (after_run w)
                       (probe_cmd f :: encode_cmds w settings job_id f (duration_of p) splits)
                       (fr_sys fr0) /\
        (forall i split, splits !! i = Some split ->
           exists r,
             segment_outcome w settings job_id f (PosixPath.splitext_ext f)
               (duration_of p) i split = inr r /\
             rs !! i = Some r)
  | (inl e, fr') =>
      (fst (subprocess_run w (probe_cmd f)) = inl e \/
       exists p i split,
         fst (subprocess_run w (probe_cmd f)) = inr p /\
         splits !! i = Some split /\
         segment_outcome w settings job_id f (PosixPath.splitext_ext f)
           (duration_of p) i split = inl e) /\
      (exists done,
         fr_sys fr' = fold_left (after_run w) (probe_cmd f :: done) (fr_sys fr0) /\
         forall c, c ∈ done ->
           exists p, fst (subprocess_run w (probe_cmd f)) = inr p /\
                     c ∈ encode_cmds w settings job_id f (duration_of p) splits) /\
      (forall r, r ∈ results fr' ->
         r ∈ results fr0 \/ status r = error
         \/ ok_output w job_id (PosixPath.splitext_ext f) r)
  end.
Proof.
  intros Hlen Hvs0.
  unfold split_video_try. unfold bind at 1, run at 1. simpl.
  destruct (fst (subprocess_run w (probe_cmd f))) as [e|p] eqn:Hprobe.
  { split; [now left|]. split.
    - exists []. split; [reflexivity|].
      intros c Hc. apply elem_of_nil in Hc. contradiction.
    - intros r Hr. now left. }
  unfold bind at 1, lift at 1. rewrite parse_duration_duration_of.
  set (fr1 := mkFrame _ _ _).
  pose proof (split_video_segments_spec w settings job_id f
                (PosixPath.splitext_ext f) (duration_of p) splits fr1 Hlen Hvs0) as Hseg.
  destruct (split_video_segments _ _ _ _ _ _ _ fr1) as [[e|[rs f']] fr'].
  - destruct Hseg as ((i & split & Hi & Hout) & (pre & Hpre & Hsys) & Hrs).
    split; [right; exists p, i, split; auto|]. split.
    + exists (map (cmd_of w settings job_id f (PosixPath.splitext_ext f)) pre).
      split; [exact Hsys|].
      intros c Hc. exists p. split; [reflexivity|].
      unfold encode_cmds. destruct Hpre as [rest ->].
      rewrite map_app. apply elem_of_app. now left.
    + exact Hrs.
  - destruct Hseg as (-> & Hres & Hl & Hsys & Hall).
    exists p. repeat split; assumption.
Qed.

End Try.

(** Membership in what the clean-up leaves. *)
Lemma elem_of_remove_if_exists p fs x :
  x ∈ remove_if_exists p fs <-> x ∈ fs /\ x <> p.
Proof.
  unfold remove_if_exists. case_bool_decide as Hp.
  - set_solver.
  - split; [|tauto]. intros Hx. split; [assumption|]. congruence.
Qed.

Lemma elem_of_cleanup_output fs r x :
  x ∈ cleanup_output fs r <->
  x ∈ fs /\ ~ (status r = ok /\ output_file r = Some x /\ x <> "").
Proof.
  unfold cleanup_output. case_bool_decide as Hst; [|tauto].
  destruct (output_file r) as [o|]; [|split; [intros; split; [assumption|] | tauto];
                                      intros (_ & Hf & _); discriminate].
  destruct (String.eqb o "") eqn:Ho; simpl.
  - apply String.eqb_eq in Ho as ->. split; [|tauto].
    intros Hx. split; [assumption|]. intros (_ & [= <-] & Hne). congruence.
  - apply String.eqb_neq in Ho. rewrite elem_of_remove_if_exists. split.
    + intros [Hx Hne]. split; [assumption|]. intros (_ & [= ->] & _). congruence.
    + intros [Hx Hno]. split; [assumption|]. intros ->. apply Hno. auto.
Qed.

Lemma elem_of_fold_cleanup_output rs : forall fs x,
  x ∈ fold_left cleanup_output rs fs <->
  x ∈ fs /\
  forall r, r ∈ rs -> ~ (status r = ok /\ output_file r = Some x /\ x <> "").
Proof.
  induction rs as [|r rs IH]; intros fs x; simpl.
  - split; [|tauto]. intros Hx. split; [assumption|].
    intros r Hr. apply elem_of_nil in Hr. contradiction.
  - rewrite IH, elem_of_cleanup_output. split.
    + intros [[Hx Hr] Hall]. split; [assumption|].
      intros r' Hr'. apply elem_of_cons in Hr' as [->|Hr']; auto.
    + intros [Hx Hall]. repeat split; [assumption| |].
      * apply Hall. left.
      * intros r' Hr'. apply Hall. now right.
Qed.

Lemma elem_of_cleanup f rs fs x :
  x ∈ cleanup f rs fs <->
  x ∈ fs /\ x <> f /\
  forall r, r ∈ rs -> ~ (status r = ok /\ output_file r = Some x /\ x <> "").
Proof.
  unfold cleanup. rewrite elem_of_fold_cleanup_output, elem_of_remove_if_exists.
  tauto.
Qed.

(** ** [split_video] as a whole *)

Section Run.
Variable w : World.
Variable video_url : string.
Variable splits : list Split.
Variable job_id : option string.
Variable settings : EncodingSettings.

Local Abbreviation jid := (effective_job_id w job_id).

Lemma split_video_unfold sys :
  split_video w video_url splits job_id settings sys =
    match fst (download_of w video_url job_id) with
    | inl e => (inl e, (acquired w video_url job_id) sys)
    | inr f =>
        match split_video_try w settings jid splits f
                (frame0 w video_url splits job_id sys) with
        | (inr r, fr) => (inr r, fr_sys fr)
        | (inl e, fr) =>
            (inl e, mkSys (cleanup f (results fr) (files (fr_sys fr)))
                      (trace (fr_sys fr)))
        end
    end.
Proof.
  unfold split_video, call, with_files, download_of, acquired, frame0; simpl.
  destruct (fst (download_file _ _ _)); reflexivity.
Qed.

Lemma frame0_length sys :
  length (results (frame0 w video_url splits job_id sys)) = length splits.
Proof. simpl. apply length_map. Qed.

Lemma frame0_results sys r :
  r ∈ results (frame0 w video_url splits job_id sys) -> r = Unprocessed.
Proof.
  simpl. intros Hr. apply list_elem_of_fmap in Hr as (? & -> & _). reflexivity.
Qed.

(** The result of a run, case by case. *)
Lemma split_video_spec sys :
  match split_video w video_url splits job_id settings sys with
  | (inr (rs, f), sys') =>
      exists p,
        fst (download_of w video_url job_id) = inr f /\
        fst (subprocess_run w (probe_cmd f)) = inr p /\
        length rs = length splits /\
        sys' = fold_left (after_run w)
                 (probe_cmd f :: encode_cmds w settings jid f (duration_of p) splits)
                 (acquired w video_url job_id sys) /\
        (forall i split, splits !! i = Some split ->
           exists r,
             segment_outcome w settings jid f (PosixPath.splitext_ext f)
               (duration_of p) i split = inr r /\
             rs !! i = Some r)
  | (inl e, sys') =>
      (fst (download_of w video_url job_id) = inl e /\
       sys' = acquired w video_url job_id sys) \/
      exists f,
        fst (download_of w video_url job_id) = inr f /\
        (fst (subprocess_run w (probe_cmd f)) = inl e \/
         exists p i split,
           fst (subprocess_run w (probe_cmd f)) = inr p /\
           splits !! i = Some split /\
           segment_outcome w settings jid f (PosixPath.splitext_ext f)
             (duration_of p) i split = inl e) /\
        (exists done,
           trace sys' = (trace sys ++ probe_cmd f :: done)%list /\
           forall c, c ∈ done ->
             exists p, fst (subprocess_run w (probe_cmd f)) = inr p /\
                       c ∈ encode_cmds w settings jid f (duration_of p) splits)
  end.
Proof.
  rewrite split_video_unfold.
  destruct (fst (download_of w video_url job_id)) as [e|f] eqn:Hdl; [left; auto|].
  pose proof (split_video_try_spec w settings jid splits f
                (frame0 w video_url splits job_id sys)
                (frame0_length sys) eq_refl) as Htry.
  destruct (split_video_try _ _ _ _ _ _) as [[e|[rs f']] fr].
  - destruct Htry as (Hcause & (done & Hsys & Hdone) & _).
    right. exists f. split; [reflexivity|]. split; [exact Hcause|].
    exists done. split; [|exact Hdone].
    simpl. rewrite Hsys. rewrite fold_left_after_run_files_trace. reflexivity.
  - destruct Htry as (p & Hp & -> & _ & Hl & Hsys & Hall).
    exists p. repeat split; assumption.
Qed.

End Run.

(** ** The handler *)

Section Handler.
Variable w : World.

Lemma remove_quietly p (fr : HandlerFrame) :
  exists sys',
    try_except None (os_remove p) (fun _ => ret tt) fr
      = (inr tt, mkHandlerFrame sys' (response fr)) /\
    trace sys' = trace (h_sys fr) /\ p ∉ files sys'.
Proof.
  unfold try_except, os_remove, with_files, ret; simpl.
  case_bool_decide as Hp; simpl.
  - eexists. split; [reflexivity|]. simpl. split; [reflexivity|].
    intros Hin. apply elem_of_difference in Hin as [_ Hin].
    apply Hin. now apply elem_of_singleton.
  - exists (h_sys fr). destruct fr; simpl in *. auto.
Qed.

Lemma upload_output_spec item path fr :
  exists sys',
    upload_output w item path fr =
      (inr
         match fst (upload_file w path) with
         | inr cloud_url =>
             mkItem (item_index item) (item_start item) (item_end item)
               (Some cloud_url) (item_error item)
         | inl e =>
             mkItem (item_index item) (item_start item) (item_end item)
               (item_file_url item) (Some (Some ("Upload failed: " ++ exn_str e)))
         end,
       mkHandlerFrame sys' (response fr)) /\
    trace sys' = trace (h_sys fr).
Proof.
  unfold upload_output, try_except at 1, bind at 1, call at 1. simpl.
  destruct (fst (upload_file w path)) as [e|url].
  - unfold ret. simpl. eexists. split; [reflexivity|]. reflexivity.
  - unfold bind at 1.
    match goal with
    | |- context [try_except None (os_remove path) _ ?x] =>
        destruct (remove_quietly path x) as (sys' & Hrm & Htr & _)
    end.
    rewrite Hrm. unfold ret. eexists. split; [reflexivity|]. exact Htr.
Qed.

Lemma respond_spec splits idx r split fr :
  splits !! idx = Some split ->
  exists sys',
    respond w splits (idx, r) fr =
      (inr tt, mkHandlerFrame sys' (response fr ++ [response_item w idx split r])%list) /\
    trace sys' = trace (h_sys fr).
Proof.
  intros Hidx. unfold respond, list_get. rewrite Hidx.
  unfold bind at 1, ret at 1. unfold bind at 1. unfold response_item.
  destruct (bool_decide (status r = ok) && truthy (output_file r)).
  - destruct (upload_output_spec
                (mkItem idx (split_start split) (split_end split) None None)
                (default "" (output_file r)) fr) as (sys' & -> & Htr).
    exists sys'. split; [|exact Htr].
    unfold append_response. simpl.
    destruct (fst (upload_file w _)); reflexivity.
  - unfold ret, append_response. simpl. exists (h_sys fr). auto.
Qed.

Lemma respond_loop splits rs : forall i0 fr,
  (i0 + length rs <= length splits)%nat ->
  exists sys' items,
    for_each (zip (seq i0 (length rs)) rs) (respond w splits) fr
      = (inr tt, mkHandlerFrame sys' (response fr ++ items)%list) /\
    trace sys' = trace (h_sys fr) /\
    length items = length rs /\
    forall k r split,
      rs !! k = Some r -> splits !! (i0 + k)%nat = Some split ->
      items !! k = Some ((response_item w) (i0 + k)%nat split r).
Proof.
  induction rs as [|r rs IH]; intros i0 fr Hlen.
  - exists (h_sys fr), []. simpl. unfold ret. rewrite app_nil_r.
    destruct fr; simpl. repeat split; try reflexivity.
    intros k r split Hk. rewrite lookup_nil in Hk. discriminate.
  - simpl in Hlen. rewrite zip_seq_cons. cbn [for_each]. unfold bind at 1.
    destruct (lookup_lt_is_Some_2 splits i0 ltac:(lia)) as [split0 Hsp0].
    destruct (respond_spec splits i0 r split0 fr Hsp0) as (sys1 & -> & Htr1).
    destruct (IH (S i0) (mkHandlerFrame sys1
                           (response fr ++ [response_item w i0 split0 r])%list)
                ltac:(lia)) as (sys2 & items & -> & Htr2 & Hl & Hitems).
    exists sys2, (response_item w i0 split0 r :: items). simpl. split.
    { now rewrite <- app_assoc. }
    split; [simpl in Htr2; congruence|]. split; [now rewrite Hl|].
    intros [|k] r' split' Hk Hsp; simpl in Hk.
    + injection Hk as <-. rewrite Nat.add_0_r in Hsp.
      rewrite Hsp0 in Hsp. injection Hsp as <-. now rewrite Nat.add_0_r.
    + simpl. replace (i0 + S k)%nat with (S i0 + k)%nat in * by lia.
      apply Hitems; assumption.
Qed.

Lemma on_sys_handler {A} (c : Sys -> (Exn + A) * Sys) sys resp :
  on_sys c (mkHandlerFrame sys resp)
    = (let '(r, sys') := c sys in (r, mkHandlerFrame sys' resp)).
Proof. reflexivity. Qed.

Lemma video_split_spec job_id data sys :
  match split_video w (d_video_url data) (d_splits data) (Some job_id)
          (settings_of data) sys with
  | (inr (rs, f), sys1) =>
      exists resp sys2,
        video_split w job_id data sys
          = ((Response resp, "/v1/video/split", 200), sys2) /\
        (f ∉ files sys2) /\ trace sys2 = trace sys1 /\
        length resp = length (d_splits data) /\
        forall k split r,
          d_splits data !! k = Some split -> rs !! k = Some r ->
          resp !! k = Some (response_item w k split r)
  | (inl e, sys1) =>
      video_split w job_id data sys
        = ((Message (exn_str e), "/v1/video/split", 500), sys1)
  end.
Proof.
  pose proof (split_video_spec w (d_video_url data) (d_splits data)
                (Some job_id) (settings_of data) sys) as Hspec.
  destruct (split_video _ _ _ _ _ sys) as [[e|[rs f]] sys1] eqn:Hsv;
    unfold video_split, video_split_try; unfold bind at 1;
    rewrite on_sys_handler, Hsv; [reflexivity|].
  destruct Hspec as (p & _ & _ & Hlen & _ & _).
  unfold bind at 1.
  destruct (respond_loop (d_splits data) rs 0 (mkHandlerFrame sys1 []) ltac:(simpl; lia))
    as (sysa & items & Hloop & Htra & Hl & Hitems).
  fold (enumerate rs) in Hloop. rewrite Hloop.
  unfold bind at 1.
  match goal with
  | |- context [try_except None (os_remove f) _ ?x] =>
      destruct (remove_quietly f x) as (sysb & Hrm & Htrb & Hgone)
  end.
  rewrite Hrm. unfold bind, get_response, ret. simpl.
  exists items, sysb. split; [reflexivity|]. split; [exact Hgone|].
  split; [simpl in *; congruence|]. split; [congruence|].
  intros k split r Hk Hr. apply (Hitems k r split Hr Hk).
Qed.

End Handler.

(** * The properties of the specification *)

Lemma add_raises_OverflowError a b e :
  PyArith.add a b = inl e -> exn_cls e = OverflowError.
Proof.
  unfold PyArith.add, PyArith.to_float, PyArith.int_to_float.
  destruct a as [x|x], b as [y|y]; intros Hadd; try discriminate;
    destruct (binary_normalize _ _ _ _ _); try discriminate;
    injection Hadd as <-; reflexivity.
Qed.

Lemma etry_add a b h :
  etry (Some [ValueError]) (PyArith.add a b) h = PyArith.add a b.
Proof.
  unfold etry. destruct (PyArith.add a b) as [e|x] eqn:Hadd; [|reflexivity].
  apply add_raises_OverflowError in Hadd.
  unfold catches. rewrite bool_decide_eq_false_2; [reflexivity|].
  rewrite Hadd. intros Hin. apply list_elem_of_singleton in Hin. discriminate.
Qed.

(** C5.  The timestamp parser maps "01:02:03.5" to 3723.5, "02:30" to
    150.0 and "45" to 45.0.  Three colon-separated fields are read as
    int hours, int minutes and float seconds, two fields as int minutes and
    float seconds, any other number of fields as one float of the whole
    string.  When one of the conversions that apply fails, as for "abc",
    the parser raises a [ValueError] whose message carries the string and
    the expected format. *)
Theorem time_to_seconds_formats :
  time_to_seconds "01:02:03.5" = inr (PyNum.PyFloat (f64 7447 (-1))) /\
  time_to_seconds "02:30" = inr (PyNum.PyFloat (f64 150 0)) /\
  time_to_seconds "45" = inr (PyNum.PyFloat (f64 45 0)) /\
  time_to_seconds "abc"
    = inl (mkExn ValueError "Invalid time format: abc. Expected HH:MM:SS[.mmm]") /\
  (forall time_str hours minutes seconds,
     PyStr.split ":" time_str = [hours; minutes; seconds] ->
     time_to_seconds time_str =
       match PyNum.py_int hours, PyNum.py_int minutes, PyNum.py_float seconds with
       | Some h, Some m, Some s =>
           PyArith.add (PyNum.PyInt (h * 3600 + m * 60)) (PyNum.PyFloat s)
       | _, _, _ => inl (invalid_time_format time_str)
       end) /\
  (forall time_str minutes seconds,
     PyStr.split ":" time_str = [minutes; seconds] ->
     time_to_seconds time_str =
       match PyNum.py_int minutes, PyNum.py_float seconds with
       | Some m, Some s => PyArith.add (PyNum.PyInt (m * 60)) (PyNum.PyFloat s)
       | _, _ => inl (invalid_time_format time_str)
       end) /\
  (forall time_str,
     length (PyStr.split ":" time_str) <> 3%nat ->
     length (PyStr.split ":" time_str) <> 2%nat ->
     time_to_seconds time_str =
       match PyNum.py_float time_str with
       | Some s => inr (PyNum.PyFloat s)
       | None => inl (invalid_time_format time_str)
       end) /\
  (forall time_str,
     invalid_time_format time_str
       = mkExn ValueError
           ("Invalid time format: " ++ time_str ++ ". Expected HH:MM:SS[.mmm]")).
Proof.
  split; [vm_compute; reflexivity|].
  split; [vm_compute; reflexivity|].
  split; [vm_compute; reflexivity|].
  split; [vm_compute; reflexivity|].
  split; [|split; [|split; [|reflexivity]]].
  - intros time_str hours minutes seconds Hparts.
    unfold time_to_seconds. rewrite Hparts. unfold int_, float_, ebind.
    destruct (PyNum.py_int hours); [|reflexivity].
    destruct (PyNum.py_int minutes); [|reflexivity].
    destruct (PyNum.py_float seconds); [|reflexivity].
    apply etry_add.
  - intros time_str minutes seconds Hparts.
    unfold time_to_seconds. rewrite Hparts. unfold int_, float_, ebind.
    destruct (PyNum.py_int minutes); [|reflexivity].
    destruct (PyNum.py_float seconds); [|reflexivity].
    apply etry_add.
  - intros time_str H3 H2.
    unfold time_to_seconds, float_, ebind.
    destruct (PyStr.split ":" time_str) as [|a [|b [|c [|d l]]]];
      simpl in H3, H2; try congruence;
      destruct (PyNum.py_float time_str); reflexivity.
Qed.

(** The parser on a three-field string whose fields all convert. *)
Lemma time_to_seconds_formats_witness :
  PyStr.split ":" "1:02:03.5" = ["1"; "02"; "03.5"] /\
  time_to_seconds "1:02:03.5" = inr (PyNum.PyFloat (f64 7447 (-1))).
Proof.
  split; [reflexivity|].
  destruct time_to_seconds_formats as (_ & _ & _ & _ & H3 & _).
  rewrite (H3 "1:02:03.5" "1" "02" "03.5" eq_refl).
  vm_compute. reflexivity.
Defined.

(** C6.  For a request whose start and end both parse: a negative start
    is replaced by 0, an end beyond the duration is replaced by the
    duration, and the request is then accepted or rejected by the single
    test that the clamped start is below the clamped end, so that a clamp
    alone never makes it an error. *)
Theorem clamps_do_not_reject :
  forall file_duration i split fr s e,
    (i < length (results fr))%nat ->
    time_to_seconds (split_start split) = inr s ->
    time_to_seconds (split_end split) = inr e ->
    (PyArith.lt s (PyNum.PyInt 0) = true -> normalize_start s = PyNum.PyInt 0) /\
    (PyArith.lt s (PyNum.PyInt 0) = false -> normalize_start s = s) /\
    (PyArith.gt e file_duration = true -> normalize_end file_duration e = file_duration) /\
    (PyArith.gt e file_duration = false -> normalize_end file_duration e = e) /\
    validate_split file_duration (i, split) fr =
      if PyArith.lt (normalize_start s) (normalize_end file_duration e)
      then append_valid (i, normalize_start s, normalize_end file_duration e, split) fr
      else set_result i (mkResult error None (Some (invalid_split_message split))) fr.
Proof.
  intros file_duration i split fr s e Hi Hs He.
  unfold normalize_start, normalize_end.
  split; [now intros ->|]. split; [now intros ->|].
  split; [now intros ->|]. split; [now intros ->|].
  rewrite validate_split_verdict by exact Hi.
  unfold verdict. rewrite Hs, He. unfold normalize_start, normalize_end.
  destruct (PyArith.lt _ _) eqn:Hlt.
  - reflexivity.
  - unfold set_result. rewrite bool_decide_eq_true_2 by exact Hi. reflexivity.
Qed.

(** A start of "-5" is clamped to 0 and an end of "100" to a duration of
    60 seconds; the request is accepted with these bounds. *)
Lemma clamps_do_not_reject_witness :
  validate_split (PyNum.PyFloat (f64 60 0)) (0%nat, mkSplit "-5" "100")
    (mkFrame example_sys [Unprocessed] [])
  = (inr tt,
     mkFrame example_sys [Unprocessed]
       [(0%nat, PyNum.PyInt 0, PyNum.PyFloat (f64 60 0), mkSplit "-5" "100")]).
Proof.
  destruct (clamps_do_not_reject (PyNum.PyFloat (f64 60 0)) 0 (mkSplit "-5" "100")
              (mkFrame example_sys [Unprocessed] [])
              (PyNum.PyFloat (f64 (-5) 0)) (PyNum.PyFloat (f64 100 0)))
    as (_ & _ & _ & _ & Hv).
  - simpl. lia.
  - vm_compute. reflexivity.
  - vm_compute. reflexivity.
  - rewrite Hv. vm_compute. reflexivity.
Defined.

Lemma compare_nan_l b : PyArith.compare (PyNum.PyFloat S754_nan) b = None.
Proof. destruct b; reflexivity. Qed.

Lemma compare_nan_r a : PyArith.compare a (PyNum.PyFloat S754_nan) = None.
Proof. destruct a as [x|[]]; reflexivity. Qed.

Lemma lt_nan_l b : PyArith.lt (PyNum.PyFloat S754_nan) b = false.
Proof. unfold PyArith.lt. now rewrite compare_nan_l. Qed.

Lemma lt_nan_r a : PyArith.lt a (PyNum.PyFloat S754_nan) = false.
Proof. unfold PyArith.lt. now rewrite compare_nan_r. Qed.

Lemma gt_nan_l b : PyArith.gt (PyNum.PyFloat S754_nan) b = false.
Proof. unfold PyArith.gt. now rewrite compare_nan_l. Qed.

(** C10.  The parser accepts strings outside the documented formats when
    the numeric conversions succeed: "0:-30" is -30.0, "0:90" is 90.0,
    "1e3" is 1000.0, "inf" and "nan" are the infinite and the
    not-a-number float.  A request whose start or end is "nan" is
    rejected by the range test with the "Invalid split" message and not
    as a parse error; only a failure to parse its other timestamp is
    reported instead. *)
Theorem parser_accepts_undocumented_forms :
  time_to_seconds "0:-30" = inr (PyNum.PyFloat (f64 (-30) 0)) /\
  time_to_seconds "0:90" = inr (PyNum.PyFloat (f64 90 0)) /\
  time_to_seconds "1e3" = inr (PyNum.PyFloat (f64 1000 0)) /\
  time_to_seconds "inf" = inr (PyNum.PyFloat (S754_infinity false)) /\
  time_to_seconds "nan" = inr (PyNum.PyFloat S754_nan) /\
  (forall file_duration i other fr,
     (i < length (results fr))%nat ->
     validate_split file_duration (i, mkSplit "nan" other) fr =
       match time_to_seconds other with
       | inr _ =>
           set_result i
             (mkResult error None
                (Some ("Invalid split: start (nan) must be before end ("
                       ++ other ++ ") within duration"))) fr
       | inl e => on_parse_error i e fr
       end) /\
  (forall file_duration i other fr,
     (i < length (results fr))%nat ->
     validate_split file_duration (i, mkSplit other "nan") fr =
       match time_to_seconds other with
       | inr _ =>
           set_result i
             (mkResult error None
                (Some ("Invalid split: start (" ++ other
                       ++ ") must be before end (nan) within duration"))) fr
       | inl e => on_parse_error i e fr
       end).
Proof.
  assert (Hnan : time_to_seconds "nan" = inr (PyNum.PyFloat S754_nan))
    by (vm_compute; reflexivity).
  split; [vm_compute; reflexivity|].
  split; [vm_compute; reflexivity|].
  split; [vm_compute; reflexivity|].
  split; [vm_compute; reflexivity|].
  split; [exact Hnan|].
  assert (Hset : forall i r (fr : Frame), (i < length (results fr))%nat ->
            set_result i r fr
            = (inr tt, mkFrame (fr_sys fr) (<[i := r]> (results fr)) (valid_splits fr))).
  { intros i r fr Hi. unfold set_result. now rewrite bool_decide_eq_true_2. }
  split; intros file_duration i other fr Hi;
    rewrite validate_split_verdict by exact Hi;
    unfold verdict, on_parse_error, verdict_of_exn; cbn [split_start split_end].
  - rewrite Hnan. destruct (time_to_seconds other) as [e|x].
    + destruct (catches _ e); [now rewrite Hset | reflexivity].
    + unfold normalize_start. rewrite lt_nan_l. cbv iota.
      now rewrite Hset.
  - rewrite Hnan. destruct (time_to_seconds other) as [e|x].
    + destruct (catches _ e); [now rewrite Hset | reflexivity].
    + unfold normalize_end. rewrite gt_nan_l. cbv iota.
      rewrite lt_nan_r. now rewrite Hset.
Qed.

(** A request from "nan" to "3" gets the range message. *)
Lemma parser_accepts_undocumented_forms_witness :
  validate_split (PyNum.PyFloat (f64 60 0)) (0%nat, mkSplit "nan" "3")
    (mkFrame example_sys [Unprocessed] [])
  = (inr tt,
     mkFrame example_sys
       [mkResult error None
          (Some "Invalid split: start (nan) must be before end (3) within duration")]
       []).
Proof.
  destruct parser_accepts_undocumented_forms as (_ & _ & _ & _ & _ & Hstart & _).
  rewrite (Hstart (PyNum.PyFloat (f64 60 0)) 0%nat "3"
             (mkFrame example_sys [Unprocessed] []));
    [vm_compute; reflexivity | simpl; lia].
Defined.


(** ** Assignments to [results] touch one slot *)

Lemma set_result_other i r fr j :
  j <> i -> results (snd (set_result i r fr)) !! j = results fr !! j.
Proof.
  intros Hne. unfold set_result. case_bool_decide; simpl; [|reflexivity].
  apply list_lookup_insert_ne. congruence.
Qed.

Lemma set_result_not_ValueError i r fr e fr' :
  set_result i r fr = (inl e, fr') -> catches (Some [ValueError]) e = false /\ fr' = fr.
Proof.
  unfold set_result. case_bool_decide; intros [= <- <-].
  split; [|reflexivity]. unfold catches. apply bool_decide_eq_false_2. simpl.
  intros Hin. apply list_elem_of_singleton in Hin. discriminate.
Qed.

Lemma validate_split_other file_duration i split fr j :
  j <> i ->
  results (snd (validate_split file_duration (i, split) fr)) !! j = results fr !! j.
Proof.
  intros Hne. unfold validate_split, try_except, bind, lift.
  destruct (time_to_seconds (split_start split)) as [e|s].
  { destruct (catches _ e); [now apply set_result_other | reflexivity]. }
  destruct (time_to_seconds (split_end split)) as [e|en].
  { destruct (catches _ e); [now apply set_result_other | reflexivity]. }
  destruct (PyArith.lt _ _); [reflexivity|].
  pose proof (set_result_other i
                (mkResult error None (Some (invalid_split_message split))) fr j Hne) as Hset.
  destruct (set_result i _ fr) as [[e|[]] fr'] eqn:Hres; [|exact Hset].
  apply set_result_not_ValueError in Hres as [-> ->]. reflexivity.
Qed.

Lemma encode_split_other w settings job_id input_filename ext v fr j :
  j <> vs_index v ->
  results (snd (encode_split w settings job_id input_filename ext v fr)) !! j
  = results fr !! j.
Proof.
  intros Hne. destruct v as [[[i s] e] sp]. unfold vs_index in Hne. simpl in Hne.
  unfold encode_split, bind, run. simpl.
  destruct (fst (subprocess_run w _)) as [x|p]; [reflexivity|].
  match goal with
  | |- context [set_result i ?r ?fr1] =>
      pose proof (set_result_other i r fr1 j Hne) as Hset;
      destruct (set_result i r fr1) as [[x|[]] fr']
  end; exact Hset.
Qed.

Lemma verdict_escapes file_duration split e :
  verdict file_duration split = Escapes e ->
  parse_is_local (split_start split) -> parse_is_local (split_end split) -> False.
Proof.
  unfold verdict, verdict_of_exn, parse_is_local, catches.
  assert (Hcaught : forall x : Exn, exn_cls x = ValueError ->
            bool_decide (exn_cls x ∈ [ValueError]) = true).
  { intros x ->. apply bool_decide_eq_true_2. now apply list_elem_of_singleton. }
  destruct (time_to_seconds (split_start split)) as [e1|s].
  { intros Hv H1 _. rewrite (Hcaught e1 H1) in Hv. discriminate Hv. }
  destruct (time_to_seconds (split_end split)) as [e2|en].
  { intros Hv _ H2. rewrite (Hcaught e2 H2) in Hv. discriminate Hv. }
  destruct (PyArith.lt _ _); discriminate.
Qed.

Lemma encode_cmds_accepted w settings job_id f file_duration splits i split s e :
  splits !! i = Some split ->
  verdict file_duration split = Accepted s e ->
  encode_cmd settings f
    (output_filename_of w job_id (PosixPath.splitext_ext f) i) s e
  ∈ encode_cmds w settings job_id f file_duration splits.
Proof.
  intros Hi Hv. unfold encode_cmds. apply list_elem_of_fmap.
  exists (i, s, e, split). split; [reflexivity|].
  apply accepted_elem. exists split, s, e. auto.
Qed.

(** C1.  Whatever the requests and whatever parsing, validation and
    encoding make of each, a list returned by [split_video] has the length
    of [splits], and its slot [i] is the outcome of [splits[i]]: the
    validation error of that request, or what the encoder run for that
    request recorded.  The list starts as one "Unprocessed" error per
    request, and the two loop bodies assign to the slot of their own
    request only.  [split_video] raises only when the download, the probe
    or the processing of a request raises; it returns whenever the
    download and the probe call return, every timestamp parses or fails
    with the parser's [ValueError], and every encoder call returns, with
    whatever exit status. *)
Theorem results_aligned_with_splits :
  forall w video_url splits job_id settings sys,
    let jid := effective_job_id w job_id in
    match fst (split_video w video_url splits job_id settings sys) with
    | inr (rs, f) =>
        length rs = length splits /\
        exists p,
          fst (download_of w video_url job_id) = inr f /\
          fst (subprocess_run w (probe_cmd f)) = inr p /\
          forall i split, splits !! i = Some split ->
            exists r,
              segment_outcome w settings jid f (PosixPath.splitext_ext f)
                (duration_of p) i split = inr r /\
              rs !! i = Some r
    | inl e =>
        fst (download_of w video_url job_id) = inl e \/
        exists f,
          fst (download_of w video_url job_id) = inr f /\
          (fst (subprocess_run w (probe_cmd f)) = inl e \/
           exists p i split,
             fst (subprocess_run w (probe_cmd f)) = inr p /\
             splits !! i = Some split /\
             segment_outcome w settings jid f (PosixPath.splitext_ext f)
               (duration_of p) i split = inl e)
    end /\
    results (frame0 w video_url splits job_id sys)
      = replicate (length splits) Unprocessed /\
    (forall file_duration i split fr j,
       j <> i ->
       results (snd (validate_split file_duration (i, split) fr)) !! j
       = results fr !! j) /\
    (forall input_filename ext v fr j,
       j <> vs_index v ->
       results (snd (encode_split w settings jid input_filename ext v fr)) !! j
       = results fr !! j) /\
    (forall f p,
       fst (download_of w video_url job_id) = inr f ->
       fst (subprocess_run w (probe_cmd f)) = inr p ->
       (forall i split, splits !! i = Some split ->
          parse_is_local (split_start split) /\ parse_is_local (split_end split)) ->
       (forall c, c ∈ encode_cmds w settings jid f (duration_of p) splits ->
          exists q, fst (subprocess_run w c) = inr q) ->
       exists rs,
         fst (split_video w video_url splits job_id settings sys) = inr (rs, f)).
Proof.
  intros w video_url splits job_id settings sys jid.
  split; [|split; [|split; [|split]]]; cycle 4.
  { intros f p Hdl Hp Hparse Henc.
    pose proof (split_video_spec w video_url splits job_id settings sys) as Hspec.
    fold jid in Hspec.
    destruct (split_video _ _ _ _ _ sys) as [[e|[rs f']] sys']; cbn [fst].
    - exfalso.
      destruct Hspec as [[Hdl' _]|(f' & Hdl' & Hcause & _)]; [congruence|].
      assert (f' = f) as -> by congruence.
      destruct Hcause as [Hp'|(p' & i & split & Hp' & Hi & Hout)]; [congruence|].
      assert (p' = p) as -> by congruence.
      unfold segment_outcome in Hout.
      destruct (verdict (duration_of p) split) as [s en|r|x] eqn:Hv.
      + destruct (Henc _ (encode_cmds_accepted w settings jid f _ _ _ _ _ _ Hi Hv))
          as [q Hq].
        cbv zeta in Hout. rewrite Hq in Hout. discriminate Hout.
      + discriminate Hout.
      + destruct (Hparse i split Hi) as [H1 H2].
        exact (verdict_escapes _ _ _ Hv H1 H2).
    - destruct Hspec as (p' & Hdl' & _).
      assert (f' = f) as -> by congruence. exists rs. reflexivity. }
  - pose proof (split_video_spec w video_url splits job_id settings sys) as Hspec.
    destruct (split_video _ _ _ _ _ sys) as [[e|[rs f]] sys']; simpl.
    + destruct Hspec as [[Hdl _]|(f & Hdl & Hcause & _)]; [now left|].
      right. exists f. auto.
    + destruct Hspec as (p & Hdl & Hp & Hlen & _ & Hall).
      split; [exact Hlen|]. exists p. auto.
  - simpl. clear. induction splits as [|sp splits IH]; simpl; [reflexivity|].
    now rewrite IH.
  - intros. now apply validate_split_other.
  - intros. now apply encode_split_other.
Qed.

(** On the example world the five requests give five results, and the
    second one carries the encoder's error. *)
Lemma results_aligned_with_splits_witness :
  exists rs f,
    fst (split_video example_world "https://example.org/v.mp4" example_splits
           (Some "job") example_settings example_sys) = inr (rs, f) /\
    length rs = 5%nat /\
    rs !! 1%nat = Some (mkResult error None (Some "FFmpeg error: moov atom not found")).
Proof.
  pose proof (results_aligned_with_splits example_world "https://example.org/v.mp4"
                example_splits (Some "job") example_settings example_sys) as [H _].
  destruct (fst (split_video _ _ _ _ _ _)) as [e|[rs f]] eqn:Hrun.
  - exfalso. clear H. vm_compute in Hrun. discriminate Hrun.
  - exists rs, f. split; [reflexivity|].
    destruct H as (Hl & p & Hd & Hp & Hall). split; [exact Hl|].
    destruct (Hall 1%nat (mkSplit "-5" "20") eq_refl) as (r & Hout & Hr).
    rewrite Hr. f_equal.
    vm_compute in Hd. injection Hd as <-.
    vm_compute in Hp. injection Hp as <-.
    vm_compute in Hout. injection Hout as <-. reflexivity.
Defined.


Lemma verdict_rejected_error file_duration split r :
  verdict file_duration split = Rejected r -> exists msg, r = error_result msg.
Proof.
  unfold verdict, verdict_of_exn. intros Hv.
  repeat match type of Hv with
         | context [match ?x with _ => _ end] => destruct x
         end; try discriminate; injection Hv as <-; eexists; reflexivity.
Qed.

(** C9.  When [split_video] returns, the handler answers 200 with one
    response item per request, in order, each carrying the index and the
    raw start and end of its request and the error or the upload of its
    result, also when every result is an error.  It answers 500, with the
    message of the exception, exactly when [split_video] raises. *)
Theorem handler_outcome :
  forall w job_id data sys,
    match fst (split_video w (d_video_url data) (d_splits data) (Some job_id)
                 (settings_of data) sys) with
    | inr (rs, f) =>
        exists resp,
          fst (video_split w job_id data sys)
            = (Response resp, "/v1/video/split", 200) /\
          length resp = length (d_splits data) /\
          forall k split r,
            d_splits data !! k = Some split -> rs !! k = Some r ->
            exists item,
              resp !! k = Some item /\
              item = response_item w k split r /\
              item_index item = k /\
              item_start item = split_start split /\
              item_end item = split_end split /\
              (status r = error ->
               item_error item = Some (error_ r) /\ item_file_url item = None)
    | inl e =>
        fst (video_split w job_id data sys)
          = (Message (exn_str e), "/v1/video/split", 500)
    end.
Proof.
  intros w job_id data sys.
  pose proof (video_split_spec w job_id data sys) as Hspec.
  destruct (split_video _ _ _ _ _ sys) as [[e|[rs f]] sys1]; simpl.
  - now rewrite Hspec.
  - destruct Hspec as (resp & sys2 & -> & _ & _ & Hlen & Hitems).
    exists resp. split; [reflexivity|]. split; [exact Hlen|].
    intros k split r Hk Hr. exists (response_item w k split r).
    split; [now apply Hitems|]. split; [reflexivity|].
    unfold response_item.
    destruct (bool_decide (status r = ok) && truthy (output_file r)) eqn:Hcond.
    + apply andb_true_iff in Hcond as [Hok _]. apply bool_decide_eq_true in Hok.
      destruct (fst (upload_file w _)); simpl; repeat split; congruence.
    + simpl. repeat split; reflexivity.
Qed.

(** On the example world the handler answers 200 and reports the range
    error of the third request at index 2. *)
Lemma handler_outcome_witness :
  exists resp,
    fst (video_split example_world "job"
           (mkData "https://example.org/v.mp4" example_splits None None None None None)
           example_sys) = (Response resp, "/v1/video/split", 200) /\
    resp !! 2%nat
    = Some (mkItem 2 "10" "5" None
              (Some (Some "Invalid split: start (10) must be before end (5) within duration"))).
Proof.
  pose proof (handler_outcome example_world "job"
                (mkData "https://example.org/v.mp4" example_splits None None None None None)
                example_sys) as H.
  destruct (fst (split_video _ _ _ _ _ _)) as [e|[rs f]] eqn:Hrun.
  - exfalso. clear H. vm_compute in Hrun. discriminate Hrun.
  - destruct H as (resp & Hresp & _ & Hitems). exists resp. split; [exact Hresp|].
    vm_compute in Hrun. injection Hrun as <- <-.
    destruct (Hitems 2%nat (mkSplit "10" "5")
                (mkResult error None
                   (Some "Invalid split: start (10) must be before end (5) within duration"))
                eq_refl eq_refl) as (item & -> & -> & _).
    reflexivity.
Defined.

(** C2.  When validation accepts no request, [split_video] returns the
    results, every one of them the error of its request, without running
    the encoder and without raising; the handler then answers 200 and the
    downloaded source file no longer exists. *)
Theorem no_valid_segments_still_returns :
  forall w job_id data sys f p,
    fst (download_of w (d_video_url data) (Some job_id)) = inr f ->
    fst (subprocess_run w (probe_cmd f)) = inr p ->
    (forall i split, d_splits data !! i = Some split ->
       exists r, verdict (duration_of p) split = Rejected r) ->
    exists rs,
      split_video w (d_video_url data) (d_splits data) (Some job_id)
        (settings_of data) sys
      = (inr (rs, f),
         after_run w (acquired w (d_video_url data) (Some job_id) sys) (probe_cmd f)) /\
      length rs = length (d_splits data) /\
      (forall i split, d_splits data !! i = Some split ->
         exists msg,
           verdict (duration_of p) split = Rejected (error_result msg) /\
           rs !! i = Some (mkResult error None (Some msg))) /\
      exists resp sys2,
        video_split w job_id data sys
          = ((Response resp, "/v1/video/split", 200), sys2) /\
        length resp = length (d_splits data) /\
        (f ∉ files sys2) /\
        trace sys2 = (trace sys ++ [probe_cmd f])%list.
Proof.
  intros w job_id data sys f p Hdl Hp Hnone.
  pose proof (split_video_spec w (d_video_url data) (d_splits data) (Some job_id)
                (settings_of data) sys) as Hspec.
  pose proof (video_split_spec w job_id data sys) as Hh.
  destruct (split_video _ _ _ _ _ sys) as [[e|[rs f']] sys1].
  - exfalso. destruct Hspec as [[Hdl' _]|(f' & Hdl' & Hcause & _)]; [congruence|].
    assert (f' = f) as -> by congruence.
    destruct Hcause as [Hp'|(p' & i & split & Hp' & Hi & Hout)]; [congruence|].
    assert (p' = p) as -> by congruence.
    destruct (Hnone i split Hi) as [r Hv].
    unfold segment_outcome in Hout. rewrite Hv in Hout. discriminate.
  - destruct Hspec as (p' & Hdl' & Hp' & Hlen & Hsys & Hall).
    assert (f' = f) as -> by congruence.
    assert (p' = p) as -> by congruence.
    assert (Hnil : encode_cmds w (settings_of data)
                     (effective_job_id w (Some job_id)) f (duration_of p)
                     (d_splits data) = []).
    { unfold encode_cmds.
      replace (accepted (duration_of p) (enumerate (d_splits data))) with (@nil ValidSplit);
        [reflexivity|].
      symmetry. apply accepted_nil. intros i split Hi s e Hv.
      destruct (Hnone i split Hi) as [r Hr]. congruence. }
    rewrite Hnil in Hsys. simpl in Hsys.
    exists rs. split; [now rewrite Hsys|]. split; [exact Hlen|]. split.
    + intros i split Hi. destruct (Hnone i split Hi) as [r Hv].
      destruct (verdict_rejected_error _ _ _ Hv) as [msg ->].
      exists msg. split; [exact Hv|].
      destruct (Hall i split Hi) as (r & Hout & Hr).
      unfold segment_outcome in Hout. rewrite Hv in Hout. injection Hout as <-.
      exact Hr.
    + destruct Hh as (resp & sys2 & Hvs & Hgone & Htr & Hl & _).
      exists resp, sys2. split; [exact Hvs|]. split; [exact Hl|].
      split; [exact Hgone|]. rewrite Htr, Hsys. reflexivity.
Qed.

(** The request from "10" to "5": one range error, a 200 answer, and the
    downloaded source is gone. *)
Lemma no_valid_segments_still_returns_witness :
  exists sys1 resp sys2,
    split_video example_world "https://example.org/v.mp4" [mkSplit "10" "5"]
      (Some "job") example_settings example_sys
    = (inr ([mkResult error None
               (Some "Invalid split: start (10) must be before end (5) within duration")],
            "/tmp/job_input.mp4"), sys1) /\
    video_split example_world "job"
      (mkData "https://example.org/v.mp4" [mkSplit "10" "5"] None None None None None)
      example_sys
    = ((Response resp, "/v1/video/split", 200), sys2) /\
    ("/tmp/job_input.mp4" ∉ files sys2).
Proof.
  destruct (no_valid_segments_still_returns example_world "job"
              (mkData "https://example.org/v.mp4" [mkSplit "10" "5"] None None None None None)
              example_sys "/tmp/job_input.mp4" (mkProcess 0 "60.000000" ""))
    as (rs & Hrun & Hlen & Hall & resp & sys2 & Hh & _ & Hgone & _).
  - vm_compute. reflexivity.
  - vm_compute. reflexivity.
  - intros [|i] split Hi; [|destruct i; discriminate].
    injection Hi as <-. eexists. vm_compute. reflexivity.
  - destruct (Hall 0%nat (mkSplit "10" "5") eq_refl) as (msg & Hv & Hr).
    vm_compute in Hv. injection Hv as <-.
    destruct rs as [|r [|r' rs]]; [discriminate Hr | | discriminate Hlen].
    injection Hr as ->.
    eexists _, resp, sys2. split; [exact Hrun|]. split; [exact Hh | exact Hgone].
Defined.




(** C4.  When the body of the outer [try] raises, which it does for an
    exception of the probe call, of an encoder call, or one that the
    validation of a request does not catch, [split_video] raises the same
    exception, and on the way removes the source file and the output file
    of every result recorded as ok, and nothing else. *)
Theorem failure_cleans_up :
  forall w video_url splits job_id settings sys f e fr,
    fst (download_of w video_url job_id) = inr f ->
    split_video_try w settings (effective_job_id w job_id) splits f
      (frame0 w video_url splits job_id sys) = (inl e, fr) ->
    exists sys',
      split_video w video_url splits job_id settings sys = (inl e, sys') /\
      trace sys' = trace (fr_sys fr) /\
      (f ∉ files sys') /\
      (forall r out,
         r ∈ results fr -> status r = ok -> output_file r = Some out ->
         out ∉ files sys') /\
      (forall x,
         x ∈ files sys' <->
         x ∈ files (fr_sys fr) /\ x <> f /\
         forall r, r ∈ results fr -> status r = ok -> output_file r <> Some x).
Proof.
  intros w video_url splits job_id settings sys f e fr Hdl Htry.
  pose proof (split_video_try_spec w settings (effective_job_id w job_id) splits f
                (frame0 w video_url splits job_id sys)
                (frame0_length w video_url splits job_id sys) eq_refl) as Hspec.
  rewrite Htry in Hspec. destruct Hspec as (_ & _ & Hrs).
  assert (Hok : forall r out, r ∈ results fr -> status r = ok ->
                              output_file r = Some out -> out <> "").
  { intros r out Hr Hst Hout.
    destruct (Hrs r Hr) as [H0|[Herr|[j ->]]].
    - apply frame0_results in H0. subst r. discriminate.
    - congruence.
    - injection Hout as <-. apply output_filename_of_nonempty. }
  assert (Hmem : forall x,
            x ∈ cleanup f (results fr) (files (fr_sys fr)) <->
            x ∈ files (fr_sys fr) /\ x <> f /\
            forall r, r ∈ results fr -> status r = ok -> output_file r <> Some x).
  { intros x. rewrite elem_of_cleanup. split.
    - intros (Hx & Hne & Hall). repeat split; try assumption.
      intros r Hr Hst Hout. apply (Hall r Hr). repeat split; try assumption.
      eapply Hok; eauto.
    - intros (Hx & Hne & Hall). repeat split; try assumption.
      intros r Hr (Hst & Hout & _). now apply (Hall r Hr Hst). }
  eexists. split.
  { rewrite split_video_unfold, Hdl, Htry. reflexivity. }
  simpl. split; [reflexivity|]. split.
  { intros Hin. apply Hmem in Hin as (_ & Hne & _). congruence. }
  split; [|exact Hmem].
  intros r out Hr Hst Hout Hin. apply Hmem in Hin as (_ & _ & Hall).
  now apply (Hall r Hr Hst).
Qed.

(** The first segment is encoded, then the encoder call for the second
    one raises: the exception comes out, and neither the source nor the
    first output is left. *)
Lemma failure_cleans_up_witness :
  exists sys',
    split_video crashing_world "https://example.org/v.mp4" example_splits
      (Some "job") example_settings example_sys
    = (inl (mkExn (OtherError "OSError") "Cannot allocate memory"), sys') /\
    ("/tmp/job_input.mp4" ∉ files sys') /\
    ("/tmp/job_split_1.mp4" ∉ files sys').
Proof.
  destruct (split_video_try crashing_world example_settings
              (effective_job_id crashing_world (Some "job")) example_splits
              "/tmp/job_input.mp4"
              (frame0 crashing_world "https://example.org/v.mp4" example_splits
                 (Some "job") example_sys)) as [r fr] eqn:Htry.
  assert (Hr : r = inl (mkExn (OtherError "OSError") "Cannot allocate memory")).
  { apply (f_equal fst) in Htry. cbn [fst] in Htry. rewrite <- Htry.
    vm_compute. reflexivity. }
  assert (Hres : results fr !! 0%nat
                 = Some (mkResult ok (Some "/tmp/job_split_1.mp4") None)).
  { apply (f_equal (fun x => results (snd x))) in Htry. cbn [snd] in Htry.
    rewrite <- Htry. vm_compute. reflexivity. }
  subst r.
  destruct (failure_cleans_up crashing_world "https://example.org/v.mp4"
              example_splits (Some "job") example_settings example_sys
              "/tmp/job_input.mp4"
              (mkExn (OtherError "OSError") "Cannot allocate memory") fr)
    as (sys' & Hrun & _ & Hsrc & Hout & _).
  - vm_compute. reflexivity.
  - exact Htry.
  - exists sys'. split; [exact Hrun|]. split; [exact Hsrc|].
    apply (Hout (mkResult ok (Some "/tmp/job_split_1.mp4") None)).
    + apply list_elem_of_lookup. eauto.
    + reflexivity.
    + reflexivity.
Defined.


(** ** Commands *)

Lemma encode_cmd_output settings f out s e settings' f' out' s' e' :
  encode_cmd settings f out s e = encode_cmd settings' f' out' s' e' -> out = out'.
Proof.
  intros Heq. apply (f_equal (fun l => List.last l (Str ""))) in Heq.
  unfold encode_cmd in Heq. cbn [List.last] in Heq. now injection Heq.
Qed.

Lemma encode_cmd_bounds settings f out s e settings' f' out' s' e' :
  encode_cmd settings f out s e = encode_cmd settings' f' out' s' e' ->
  s = s' /\ e = e'.
Proof.
  intros Heq. unfold encode_cmd in Heq.
  assert (H4 := f_equal (fun l => l !! 4%nat) Heq).
  assert (H6 := f_equal (fun l => l !! 6%nat) Heq).
  cbn in H4, H6. injection H4 as ->. injection H6 as ->. auto.
Qed.

Lemma encode_cmd_not_probe settings f out s e f' :
  encode_cmd settings f out s e <> probe_cmd f'.
Proof.
  intros Heq. apply (f_equal (fun l => List.hd (Str "") l)) in Heq.
  unfold encode_cmd, probe_cmd in Heq. cbn [List.hd] in Heq.
  discriminate Heq.
Qed.

(** The commands of a run are commands of accepted requests. *)
Lemma encode_cmds_elem w settings job_id f file_duration splits c :
  c ∈ encode_cmds w settings job_id f file_duration splits ->
  exists j split s e,
    splits !! j = Some split /\
    verdict file_duration split = Accepted s e /\
    c = encode_cmd settings f
          (output_filename_of w job_id (PosixPath.splitext_ext f) j) s e.
Proof.
  unfold encode_cmds. intros Hc.
  apply list_elem_of_fmap in Hc as (v & -> & Hv).
  apply accepted_elem in Hv as (split & s & e & Hj & Hver & Hveq).
  exists (vs_index v), split, s, e. split; [exact Hj|]. split; [exact Hver|].
  unfold cmd_of. rewrite Hveq. reflexivity.
Qed.

(** C7.  A request whose clamped start is not below its clamped end is
    never handed to the encoder: no command that writes the output file
    of that request is run, whether [split_video] returns or raises; and
    in a returned list its slot is an error with no output path and the
    message "Invalid split: start (<start>) must be before end (<end>)
    within duration", built from the strings of the request. *)
Theorem rejected_segment_never_encoded :
  forall w video_url splits job_id settings sys f p i split s e,
    let jid := effective_job_id w job_id in
    fst (download_of w video_url job_id) = inr f ->
    fst (subprocess_run w (probe_cmd f)) = inr p ->
    splits !! i = Some split ->
    time_to_seconds (split_start split) = inr s ->
    time_to_seconds (split_end split) = inr e ->
    PyArith.lt (normalize_start s) (normalize_end (duration_of p) e) = false ->
    (forall rs f',
       fst (split_video w video_url splits job_id settings sys) = inr (rs, f') ->
       rs !! i
       = Some (mkResult error None
                 (Some ("Invalid split: start (" ++ split_start split
                        ++ ") must be before end (" ++ split_end split
                        ++ ") within duration")))) /\
    exists ran,
      trace (snd (split_video w video_url splits job_id settings sys))
        = (trace sys ++ ran)%list /\
      forall settings' f' s' e',
        encode_cmd settings' f'
          (output_filename_of w jid (PosixPath.splitext_ext f) i) s' e' ∉ ran.
Proof.
  intros w video_url splits job_id settings sys f p i split s e jid
         Hdl Hp Hi Hs He Hlt.
  assert (Hv : verdict (duration_of p) split
               = Rejected (error_result (invalid_split_message split))).
  { unfold verdict. now rewrite Hs, He, Hlt. }
  assert (Hnot : forall settings' f' s' e' (ran : list (list Arg)),
            (forall c, c ∈ ran -> c = probe_cmd f \/
                       c ∈ encode_cmds w settings jid f (duration_of p) splits) ->
            encode_cmd settings' f'
              (output_filename_of w jid (PosixPath.splitext_ext f) i) s' e' ∉ ran).
  { intros settings' f' s' e' ran Hran Hin.
    destruct (Hran _ Hin) as [Heq|Hc].
    - now apply encode_cmd_not_probe in Heq.
    - apply encode_cmds_elem in Hc as (j & sp & s1 & e1 & Hj & Hver & Heq).
      apply encode_cmd_output in Heq. apply output_filename_of_inj in Heq.
      subst j. congruence. }
  pose proof (split_video_spec w video_url splits job_id settings sys) as Hspec.
  fold jid in Hspec.
  destruct (split_video _ _ _ _ _ sys) as [[x|[rs f']] sys']; cbn [fst snd].
  - split; [intros rs f' Hr; discriminate Hr|].
    destruct Hspec as [[Hdl' _]|(f' & Hdl' & _ & done & Htr & Hdone)]; [congruence|].
    assert (f' = f) as -> by congruence.
    exists (probe_cmd f :: done). split; [exact Htr|].
    intros settings' f' s' e'. apply Hnot.
    intros c Hc. apply elem_of_cons in Hc as [->|Hc]; [now left|].
    right. destruct (Hdone c Hc) as (p' & Hp' & Hc').
    assert (p' = p) as -> by congruence. exact Hc'.
  - destruct Hspec as (p' & Hdl' & Hp' & Hlen & Hsys & Hall).
    assert (f' = f) as -> by congruence.
    assert (p' = p) as -> by congruence.
    split.
    + intros rs0 f0 [= <- <-].
      destruct (Hall i split Hi) as (r & Hout & Hr).
      unfold segment_outcome in Hout. rewrite Hv in Hout. injection Hout as <-.
      exact Hr.
    + exists (probe_cmd f :: encode_cmds w settings jid f (duration_of p) splits).
      split.
      { rewrite Hsys. rewrite fold_left_after_run_files_trace. reflexivity. }
      intros settings' f' s' e'. apply Hnot.
      intros c Hc. apply elem_of_cons in Hc as [->|Hc]; [now left | now right].
Qed.

(** The third request of the example, from "10" to "5", is rejected: its
    slot holds the range error. *)
Lemma rejected_segment_never_encoded_witness :
  exists (rs : list SegmentResult) f',
    fst (split_video example_world "https://example.org/v.mp4" example_splits
           (Some "job") example_settings example_sys) = inr (rs, f') /\
    rs !! 2%nat
    = Some (mkResult error None
              (Some "Invalid split: start (10) must be before end (5) within duration")).
Proof.
  destruct (rejected_segment_never_encoded example_world "https://example.org/v.mp4"
              example_splits (Some "job") example_settings example_sys
              "/tmp/job_input.mp4" (mkProcess 0 "60.000000" "")
              2%nat (mkSplit "10" "5")
              (PyNum.PyFloat (f64 10 0)) (PyNum.PyFloat (f64 5 0))) as [Hslot _].
  - vm_compute. reflexivity.
  - vm_compute. reflexivity.
  - reflexivity.
  - vm_compute. reflexivity.
  - vm_compute. reflexivity.
  - vm_compute. reflexivity.
  - destruct (fst (split_video _ _ _ _ _ _)) as [x|[rs f']] eqn:Hrun.
    + exfalso. clear Hslot. vm_compute in Hrun. discriminate Hrun.
    + exists rs, f'. split; [reflexivity|]. apply (Hslot rs f' eq_refl).
Defined.


(** ** One encoder answer changed *)

Lemma segment_outcome_override w cmd x settings jid f ext file_duration j split :
  (forall s e, verdict file_duration split = Accepted s e ->
     encode_cmd settings f (output_filename_of w jid ext j) s e <> cmd) ->
  segment_outcome (with_run_answer w cmd x) settings jid f ext file_duration j split
  = segment_outcome w settings jid f ext file_duration j split.
Proof.
  intros Hne. unfold segment_outcome.
  destruct (verdict file_duration split) as [s e|r|y]; try reflexivity.
  cbv zeta.
  change (output_filename_of (with_run_answer w cmd x) jid ext j)
    with (output_filename_of w jid ext j).
  cbn [subprocess_run with_run_answer].
  rewrite decide_False by (now apply Hne). reflexivity.
Qed.

Lemma accepted_zip_sorted file_duration splits : forall i0,
  StronglySorted lt
    (map vs_index (accepted file_duration (zip (seq i0 (length splits)) splits))).
Proof.
  induction splits as [|sp splits IH]; intros i0.
  - constructor.
  - rewrite zip_seq_cons, accepted_cons.
    destruct (verdict file_duration sp); try apply IH.
    simpl. constructor; [apply IH|].
    apply Forall_forall. intros x Hx.
    apply list_elem_of_fmap in Hx as (v & -> & Hv).
    apply accepted_zip_elem in Hv as (k & split & s & e & _ & _ & ->).
    unfold vs_index. simpl. lia.
Qed.

(** C8.  In a run that returns, the commands run are the probe and then
    one encoder command per accepted request, in increasing order of the
    request index, each on the files left by the one before.  When the
    encoder exits with a non-zero status for request [k], slot [k] is an
    error with no output path and the message "FFmpeg error: " followed
    by the stripped error output, and every other slot is what it is in
    the world where that one encoder run exits with status 0. *)
Theorem encode_failure_is_local :
  forall w video_url splits job_id settings sys rs f p k split s e q q_ok eff,
    let jid := effective_job_id w job_id in
    let out := output_filename_of w jid (PosixPath.splitext_ext f) k in
    let cmd := encode_cmd settings f out s e in
    fst (split_video w video_url splits job_id settings sys) = inr (rs, f) ->
    fst (subprocess_run w (probe_cmd f)) = inr p ->
    splits !! k = Some split ->
    verdict (duration_of p) split = Accepted s e ->
    fst (subprocess_run w cmd) = inr q ->
    returncode q <> 0 ->
    returncode q_ok = 0 ->
    snd (split_video w video_url splits job_id settings sys)
      = fold_left (after_run w)
          (probe_cmd f
           :: map (cmd_of w settings jid f (PosixPath.splitext_ext f))
                (accepted (duration_of p) (enumerate splits)))
          (acquired w video_url job_id sys) /\
    StronglySorted lt (map vs_index (accepted (duration_of p) (enumerate splits))) /\
    rs !! k
      = Some (mkResult error None
                (Some ("FFmpeg error: " ++ PyStr.strip (stderr q)))) /\
    exists rs',
      fst (split_video (with_run_answer w cmd (inr q_ok, eff))
             video_url splits job_id settings sys) = inr (rs', f) /\
      rs' !! k = Some (mkResult ok (Some out) None) /\
      forall j, j <> k -> rs' !! j = rs !! j.
Proof.
  intros w video_url splits job_id settings sys rs f p k split s e q q_ok eff
         jid out cmd Hrun Hp Hk Hv Hq Hfail Hok.
  pose proof (split_video_spec w video_url splits job_id settings sys) as Hspec.
  fold jid in Hspec.
  destruct (split_video _ _ _ _ _ sys) as [[x|[rs0 f0]] sys'];
    cbn [fst snd] in *; [discriminate Hrun|].
  injection Hrun as -> ->.
  destruct Hspec as (p' & Hdl & Hp' & Hlen & Hsys & Hall).
  assert (p' = p) as -> by congruence.
  split; [exact Hsys|].
  split; [apply (accepted_zip_sorted (duration_of p) splits 0)|].
  assert (Hslot : rs !! k = Some (encode_result out q)).
  { destruct (Hall k split Hk) as (r & Hout & Hr).
    unfold segment_outcome in Hout. rewrite Hv in Hout. cbv zeta in Hout.
    fold out in Hout. fold cmd in Hout. rewrite Hq in Hout.
    injection Hout as <-. exact Hr. }
  split.
  { rewrite Hslot. unfold encode_result.
    destruct (returncode q =? 0) eqn:Hz; [|reflexivity].
    apply Z.eqb_eq in Hz. contradiction. }
  set (w2 := with_run_answer w cmd (inr q_ok, eff)).
  (* what happens to each request in the other world *)
  assert (Hother : forall j sp, splits !! j = Some sp -> j <> k ->
            segment_outcome w2 settings jid f (PosixPath.splitext_ext f)
              (duration_of p) j sp
            = segment_outcome w settings jid f (PosixPath.splitext_ext f)
                (duration_of p) j sp).
  { intros j sp Hj Hne. apply segment_outcome_override.
    intros s' e' _ Heq. apply encode_cmd_output in Heq.
    apply output_filename_of_inj in Heq. contradiction. }
  assert (Hself : segment_outcome w2 settings jid f (PosixPath.splitext_ext f)
                    (duration_of p) k split
                  = inr (mkResult ok (Some out) None)).
  { unfold segment_outcome. rewrite Hv. cbv zeta.
    change (output_filename_of w2 jid (PosixPath.splitext_ext f) k) with out.
    fold cmd. cbn [subprocess_run w2 with_run_answer].
    rewrite decide_True by reflexivity. cbn [fst].
    unfold encode_result. rewrite Hok. reflexivity. }
  assert (Hprobe2 : fst (subprocess_run w2 (probe_cmd f)) = inr p).
  { cbn [subprocess_run w2 with_run_answer].
    rewrite decide_False; [exact Hp|].
    intros Heq. symmetry in Heq. now apply encode_cmd_not_probe in Heq. }
  pose proof (split_video_spec w2 video_url splits job_id settings sys) as Hspec2.
  change (effective_job_id w2 job_id) with jid in Hspec2.
  change (download_of w2 video_url job_id) with (download_of w video_url job_id)
    in Hspec2.
  destruct (split_video w2 _ _ _ _ sys) as [[x|[rs' f']] sys2]; cbn [fst].
  - exfalso.
    destruct Hspec2 as [[Hdl' _]|(f' & Hdl' & Hcause & _)]; [congruence|].
    assert (f' = f) as -> by congruence.
    destruct Hcause as [Hp2|(p2 & j & sp & Hp2 & Hj & Hout)]; [congruence|].
    assert (p2 = p) as -> by congruence.
    destruct (decide (j = k)) as [->|Hne].
    + assert (sp = split) as -> by congruence. congruence.
    + rewrite (Hother j sp Hj Hne) in Hout.
      destruct (Hall j sp Hj) as (r & Hout' & _). congruence.
  - destruct Hspec2 as (p2 & Hdl' & Hp2 & Hlen' & _ & Hall').
    assert (f' = f) as -> by congruence.
    assert (p2 = p) as -> by congruence.
    exists rs'. split; [reflexivity|]. split.
    + destruct (Hall' k split Hk) as (r & Hout & Hr). congruence.
    + intros j Hne.
      destruct (splits !! j) as [sp|] eqn:Hj.
      * destruct (Hall' j sp Hj) as (r' & Hout' & Hr').
        destruct (Hall j sp Hj) as (r & Hout & Hr).
        rewrite (Hother j sp Hj Hne) in Hout'. congruence.
      * apply lookup_ge_None in Hj.
        rewrite (proj2 (lookup_ge_None rs' j)) by lia.
        rewrite (proj2 (lookup_ge_None rs j)) by lia. reflexivity.
Qed.

(** On the example world the encoder fails for the second of the five
    requests; had it exited with status 0, the first and the fifth result
    would be the same. *)
Lemma encode_failure_is_local_witness :
  exists rs rs' : list SegmentResult,
    fst (split_video example_world "https://example.org/v.mp4" example_splits
           (Some "job") example_settings example_sys)
      = inr (rs, "/tmp/job_input.mp4") /\
    rs !! 1%nat = Some (mkResult error None (Some "FFmpeg error: moov atom not found")) /\
    rs' !! 1%nat = Some (mkResult ok (Some "/tmp/job_split_2.mp4") None) /\
    rs' !! 0%nat = rs !! 0%nat /\ rs' !! 4%nat = rs !! 4%nat.
Proof.
  destruct (fst (split_video example_world "https://example.org/v.mp4" example_splits
                   (Some "job") example_settings example_sys)) as [x|[rs f]] eqn:Hrun.
  { exfalso. vm_compute in Hrun. discriminate Hrun. }
  assert (Hf : f = "/tmp/job_input.mp4").
  { vm_compute in Hrun. now injection Hrun as _ <-. }
  subst f.
  destruct (encode_failure_is_local example_world "https://example.org/v.mp4"
              example_splits (Some "job") example_settings example_sys
              rs "/tmp/job_input.mp4" (mkProcess 0 "60.000000" "")
              1%nat (mkSplit "-5" "20")
              (PyNum.PyInt 0) (PyNum.PyFloat (f64 20 0))
              (mkProcess 1 "" " moov atom not found ") (mkProcess 0 "" "")
              (fun fs => fs))
    as (_ & _ & Hk & rs' & _ & Hk' & Hothers).
  - exact Hrun.
  - vm_compute. reflexivity.
  - reflexivity.
  - vm_compute. reflexivity.
  - vm_compute. reflexivity.
  - discriminate.
  - reflexivity.
  - exists rs, rs'. split; [reflexivity|].
    split; [rewrite Hk; vm_compute; reflexivity|].
    split; [rewrite Hk'; vm_compute; reflexivity|].
    split; apply Hothers; discriminate.
Defined.


(** * Further properties of the code *)

(** ** The outcomes of the timestamp parser *)

Lemma add_exn a b e :
  PyArith.add a b = inl e ->
  exn_cls e = OverflowError /\ exn_str e = "int too large to convert to float".
Proof.
  unfold PyArith.add, PyArith.to_float, PyArith.int_to_float.
  destruct a as [x|x], b as [y|y]; intros Hadd; try discriminate;
    destruct (binary_normalize _ _ _ _ _); try discriminate;
    injection Hadd as <-; split; reflexivity.
Qed.

Lemma add_int_float n f x :
  PyArith.add (PyNum.PyInt n) (PyNum.PyFloat f) = inr x -> exists g, x = PyNum.PyFloat g.
Proof.
  unfold PyArith.add, PyArith.to_float.
  destruct (PyArith.int_to_float n); [discriminate|].
  intros [= <-]. eexists; reflexivity.
Qed.

(** X1.  The timestamp parser has three outcomes only: a float (never an
    int), the [ValueError] with the "Invalid time format" message for the
    string it was given, or the [OverflowError] of an integer field too
    large for a float, which it does not turn into a [ValueError]. *)
Theorem time_to_seconds_outcomes :
  forall time_str,
    match time_to_seconds time_str with
    | inr x => exists f, x = PyNum.PyFloat f
    | inl e =>
        e = mkExn ValueError
              ("Invalid time format: " ++ time_str ++ ". Expected HH:MM:SS[.mmm]") \/
        (exn_cls e = OverflowError /\
         exn_str e = "int too large to convert to float" /\
         (length (PyStr.split ":" time_str) = 2%nat \/
          length (PyStr.split ":" time_str) = 3%nat))
    end.
Proof.
  intros time_str. unfold time_to_seconds.
  destruct (PyStr.split ":" time_str) as [|a [|b [|c [|d l]]]] eqn:Hparts;
    unfold int_, float_, ebind, etry.
  - destruct (PyNum.py_float time_str); [eexists; reflexivity | now left].
  - destruct (PyNum.py_float time_str); [eexists; reflexivity | now left].
  - destruct (PyNum.py_int a); [|now left].
    destruct (PyNum.py_float b); [|now left].
    destruct (PyArith.add _ _) as [e|x] eqn:Hadd.
    + destruct (add_exn _ _ _ Hadd) as [Hc Hs].
      destruct (catches _ e); [now left|]. right. simpl. auto.
    + eapply add_int_float; eauto.
  - destruct (PyNum.py_int a); [|now left].
    destruct (PyNum.py_int b); [|now left].
    destruct (PyNum.py_float c); [|now left].
    destruct (PyArith.add _ _) as [e|x] eqn:Hadd.
    + destruct (add_exn _ _ _ Hadd) as [Hc Hs].
      destruct (catches _ e); [now left|]. right. simpl. auto.
    + eapply add_int_float; eauto.
  - destruct (PyNum.py_float time_str); [eexists; reflexivity | now left].
Qed.

(** ** The shape of returned results *)

Lemma etry_reraised {A} (body : Exn + A) (h e : Exn) :
  etry (Some [ValueError]) body (fun _ => inl h) = inl e ->
  catches (Some [ValueError]) e = true ->
  e = h.
Proof.
  unfold etry. destruct body as [e0|x]; [|discriminate].
  destruct (catches (Some [ValueError]) e0) eqn:Hc; intros Heq Hc';
    injection Heq as Heq; subst e; [reflexivity | congruence].
Qed.

Lemma time_to_seconds_ValueError time_str e :
  time_to_seconds time_str = inl e ->
  catches (Some [ValueError]) e = true ->
  e = invalid_time_format time_str.
Proof. unfold time_to_seconds. apply etry_reraised. Qed.

Lemma verdict_rejected_message file_duration split r :
  verdict file_duration split = Rejected r ->
  exists msg, r = mkResult error None (Some msg) /\ msg <> "Unprocessed".
Proof.
  unfold verdict, verdict_of_exn. intros Hv.
  assert (Hparse : forall t e, time_to_seconds t = inl e ->
            catches (Some [ValueError]) e = true ->
            exn_str e <> "Unprocessed").
  { intros t e Ht Hc. rewrite (time_to_seconds_ValueError t e Ht Hc).
    simpl. discriminate. }
  destruct (time_to_seconds (split_start split)) as [e1|s] eqn:H1.
  { destruct (catches _ e1) eqn:Hc; [|discriminate]. injection Hv as <-.
    eexists. split; [reflexivity|]. eapply Hparse; eauto. }
  destruct (time_to_seconds (split_end split)) as [e2|en] eqn:H2.
  { destruct (catches _ e2) eqn:Hc; [|discriminate]. injection Hv as <-.
    eexists. split; [reflexivity|]. eapply Hparse; eauto. }
  destruct (PyArith.lt _ _); [discriminate|]. injection Hv as <-.
  eexists. split; [reflexivity|]. unfold invalid_split_message. simpl. discriminate.
Qed.

Lemma segment_outcome_settled w settings job_id f ext file_duration i split r :
  segment_outcome w settings job_id f ext file_duration i split = inr r ->
  settled_result w job_id ext i r.
Proof.
  unfold segment_outcome, settled_result.
  destruct (verdict file_duration split) as [s e|r0|x] eqn:Hv; [| |discriminate].
  - cbv zeta. destruct (fst (subprocess_run w _)) as [x|p]; [discriminate|].
    intros [= <-]. unfold encode_result.
    destruct (negb (returncode p =? 0)); [right | now left].
    eexists. split; [reflexivity|]. simpl. discriminate.
  - intros [= <-]. right. eapply verdict_rejected_message; eauto.
Qed.

(** X2.  In a list returned by [split_video] every slot is settled: it is
    either ok with the output file named after its own index and no
    error, or an error with no output file and a message, and the initial
    "Unprocessed" message is never left in it. *)
Theorem returned_results_are_settled :
  forall w video_url splits job_id settings sys rs f i r,
    fst (split_video w video_url splits job_id settings sys) = inr (rs, f) ->
    rs !! i = Some r ->
    settled_result w (effective_job_id w job_id) (PosixPath.splitext_ext f) i r /\
    r <> Unprocessed.
Proof.
  intros w video_url splits job_id settings sys rs f i r Hrun Hi.
  pose proof (split_video_spec w video_url splits job_id settings sys) as Hspec.
  destruct (split_video _ _ _ _ _ sys) as [[x|[rs0 f0]] sys'];
    cbn [fst] in Hrun; [discriminate Hrun|].
  injection Hrun as -> ->.
  destruct Hspec as (p & _ & _ & Hlen & _ & Hall).
  assert (Hlt : (i < length splits)%nat)
    by (rewrite <- Hlen; eapply lookup_lt_Some; eauto).
  apply lookup_lt_is_Some_2 in Hlt as [split Hsplit].
  destruct (Hall i split Hsplit) as (r' & Hout & Hr').
  assert (r' = r) as -> by congruence.
  apply segment_outcome_settled in Hout. split; [exact Hout|].
  destruct Hout as [->|(msg & -> & Hmsg)]; [discriminate|].
  unfold Unprocessed. congruence.
Qed.

(** The five results of the example are settled. *)
Lemma returned_results_are_settled_witness :
  exists (rs : list SegmentResult) r,
    rs !! 3%nat = Some r /\
    settled_result example_world "job" ".mp4" 3 r /\ r <> Unprocessed.
Proof.
  destruct (fst (split_video example_world "https://example.org/v.mp4" example_splits
                   (Some "job") example_settings example_sys)) as [x|[rs f]] eqn:Hrun.
  { exfalso. vm_compute in Hrun. discriminate Hrun. }
  assert (Hf : f = "/tmp/job_input.mp4").
  { vm_compute in Hrun. now injection Hrun as _ <-. }
  subst f.
  assert (Hr : rs !! 3%nat
               = Some (mkResult error None
                         (Some "Invalid time format: abc. Expected HH:MM:SS[.mmm]"))).
  { vm_compute in Hrun. injection Hrun as <-. reflexivity. }
  eexists rs, _. split; [exact Hr|].
  exact (returned_results_are_settled example_world "https://example.org/v.mp4"
           example_splits (Some "job") example_settings example_sys rs
           "/tmp/job_input.mp4" 3%nat _ Hrun Hr).
Defined.

(** X3.  Two ok slots of a returned list never name the same output file:
    the file name carries the index of the request. *)
Theorem ok_outputs_are_distinct :
  forall w video_url splits job_id settings sys rs f i j ri rj,
    fst (split_video w video_url splits job_id settings sys) = inr (rs, f) ->
    rs !! i = Some ri -> rs !! j = Some rj ->
    status ri = ok -> status rj = ok ->
    i <> j ->
    output_file ri <> output_file rj /\
    output_file ri
      = Some (output_filename_of w (effective_job_id w job_id)
                (PosixPath.splitext_ext f) i).
Proof.
  intros w video_url splits job_id settings sys rs f i j ri rj Hrun Hi Hj Hoi Hoj Hne.
  pose proof (split_video_spec w video_url splits job_id settings sys) as Hspec.
  destruct (split_video _ _ _ _ _ sys) as [[x|[rs0 f0]] sys'];
    cbn [fst] in Hrun; [discriminate Hrun|].
  injection Hrun as -> ->.
  destruct Hspec as (p & _ & _ & Hlen & _ & Hall).
  assert (Hok : forall k r, rs !! k = Some r -> status r = ok ->
            output_file r
            = Some (output_filename_of w (effective_job_id w job_id)
                      (PosixPath.splitext_ext f) k)).
  { intros k r Hk Hst.
    assert (Hlt : (k < length splits)%nat)
      by (rewrite <- Hlen; eapply lookup_lt_Some; eauto).
    apply lookup_lt_is_Some_2 in Hlt as [split Hsplit].
    destruct (Hall k split Hsplit) as (r' & Hout & Hr').
    assert (r' = r) as -> by congruence.
    apply segment_outcome_settled in Hout as [->|(msg & -> & _)];
      [reflexivity | discriminate Hst]. }
  rewrite (Hok i ri Hi Hoi), (Hok j rj Hj Hoj). split; [|reflexivity].
  intros [= Heq]. apply output_filename_of_inj in Heq. contradiction.
Qed.

(** The first and the fifth result of the example are ok, with different
    output files. *)
Lemma ok_outputs_are_distinct_witness :
  exists (rs : list SegmentResult) ri rj,
    rs !! 0%nat = Some ri /\ rs !! 4%nat = Some rj /\
    output_file ri <> output_file rj.
Proof.
  destruct (fst (split_video example_world "https://example.org/v.mp4" example_splits
                   (Some "job") example_settings example_sys)) as [x|[rs f]] eqn:Hrun.
  { exfalso. vm_compute in Hrun. discriminate Hrun. }
  assert (Hrs : rs !! 0%nat = Some (mkResult ok (Some "/tmp/job_split_1.mp4") None) /\
                rs !! 4%nat = Some (mkResult ok (Some "/tmp/job_split_5.mp4") None)).
  { vm_compute in Hrun. injection Hrun as <- _. split; reflexivity. }
  destruct Hrs as [H0 H4].
  eexists rs, _, _. split; [exact H0|]. split; [exact H4|].
  apply (ok_outputs_are_distinct example_world "https://example.org/v.mp4"
           example_splits (Some "job") example_settings example_sys rs f
           0%nat 4%nat _ _ Hrun H0 H4 eq_refl eq_refl).
  discriminate.
Defined.

(** X4.  Changing one request changes its own slot only: when
    [split_video] returns for a list of requests and for the same list
    with request [i] replaced, the two results agree at every other
    index, and name the same source file. *)
Theorem sibling_results_are_independent :
  forall w video_url splits job_id settings sys i split' rs f rs' f',
    fst (split_video w video_url splits job_id settings sys) = inr (rs, f) ->
    fst (split_video w video_url (<[i := split']> splits) job_id settings sys)
      = inr (rs', f') ->
    f' = f /\ length rs' = length rs /\
    forall j, j <> i -> rs' !! j = rs !! j.
Proof.
  intros w video_url splits job_id settings sys i split' rs f rs' f' Hrun Hrun'.
  pose proof (split_video_spec w video_url splits job_id settings sys) as Hspec.
  pose proof (split_video_spec w video_url (<[i := split']> splits) job_id settings sys)
    as Hspec'.
  destruct (split_video _ _ splits _ _ sys) as [[x|[rs0 f0]] sys1];
    cbn [fst] in Hrun; [discriminate Hrun|].
  destruct (split_video _ _ (<[i := split']> splits) _ _ sys) as [[x|[rs1 f1]] sys2];
    cbn [fst] in Hrun'; [discriminate Hrun'|].
  injection Hrun as -> ->. injection Hrun' as -> ->.
  destruct Hspec as (p & Hdl & Hp & Hlen & _ & Hall).
  destruct Hspec' as (p' & Hdl' & Hp' & Hlen' & _ & Hall').
  assert (f' = f) as -> by congruence.
  assert (p' = p) as -> by congruence.
  rewrite length_insert in Hlen'.
  split; [reflexivity|]. split; [congruence|].
  intros j Hne.
  destruct (splits !! j) as [sp|] eqn:Hj.
  - assert (Hj' : <[i := split']> splits !! j = Some sp)
      by (rewrite list_lookup_insert_ne by congruence; exact Hj).
    destruct (Hall j sp Hj) as (r & Hout & Hr).
    destruct (Hall' j sp Hj') as (r' & Hout' & Hr'). congruence.
  - apply lookup_ge_None in Hj.
    rewrite (proj2 (lookup_ge_None rs' j)) by lia.
    rewrite (proj2 (lookup_ge_None rs j)) by lia. reflexivity.
Qed.

(** Replacing the failing second request of the example by a request
    that cannot be parsed leaves the first result as it was. *)
Lemma sibling_results_are_independent_witness :
  exists rs rs' : list SegmentResult,
    rs !! 1%nat <> rs' !! 1%nat /\ rs' !! 0%nat = rs !! 0%nat.
Proof.
  destruct (fst (split_video example_world "https://example.org/v.mp4" example_splits
                   (Some "job") example_settings example_sys)) as [x|[rs f]] eqn:Hrun.
  { exfalso. vm_compute in Hrun. discriminate Hrun. }
  destruct (fst (split_video example_world "https://example.org/v.mp4"
                   (<[1%nat := mkSplit "x" "y"]> example_splits)
                   (Some "job") example_settings example_sys)) as [x|[rs' f']] eqn:Hrun'.
  { exfalso. vm_compute in Hrun'. discriminate Hrun'. }
  exists rs, rs'. split.
  - vm_compute in Hrun, Hrun'. injection Hrun as <- _. injection Hrun' as <- _.
    discriminate.
  - destruct (sibling_results_are_independent example_world
                "https://example.org/v.mp4" example_splits (Some "job")
                example_settings example_sys 1%nat (mkSplit "x" "y") rs f rs' f'
                Hrun Hrun') as (_ & _ & Hothers).
    apply Hothers. discriminate.
Defined.

(** ** An exception that validation does not catch *)

Lemma validation_escape_try w settings job_id splits f fr0 p i split e :
  length (results fr0) = length splits ->
  fst (subprocess_run w (probe_cmd f)) = inr p ->
  splits !! i = Some split ->
  verdict (duration_of p) split = Escapes e ->
  exists e' fr',
    split_video_try w settings job_id splits f fr0 = (inl e', fr') /\
    fr_sys fr' = after_run w (fr_sys fr0) (probe_cmd f) /\
    (forall r, r ∈ results fr' -> r ∈ results fr0 \/ status r = error) /\
    exists j sp, splits !! j = Some sp /\ verdict (duration_of p) sp = Escapes e'.
Proof.
  intros Hlen Hp Hi Hv.
  unfold split_video_try. unfold bind at 1, run at 1. simpl. rewrite Hp.
  unfold bind at 1, lift at 1. rewrite parse_duration_duration_of.
  set (fr1 := mkFrame _ _ _).
  unfold split_video_segments. unfold bind at 1.
  pose proof (validation_loop (duration_of p) splits 0 fr1 ltac:(simpl; lia)) as Hval.
  fold (enumerate splits) in Hval.
  destruct (for_each (enumerate splits) _ fr1) as [[e'|[]] fr'].
  - destruct Hval as (Hsys & Hrs & Hcause).
    exists e', fr'. split; [reflexivity|]. split; [exact Hsys|].
    split; [exact Hrs | exact Hcause].
  - exfalso. destruct Hval as (_ & _ & _ & _ & Hin).
    specialize (Hin i split Hi). now rewrite Hv in Hin.
Qed.

(** X5.  When the validation of some request raises an exception that is
    not a [ValueError], as the parser does for an integer field too large
    for a float, [split_video] raises such an exception for the whole
    operation: no request is encoded, valid ones included, the probe is
    the only program run, and of the files only the source is removed. *)
Theorem uncaught_validation_error_fails_the_operation :
  forall w video_url splits job_id settings sys f p i split e,
    fst (download_of w video_url job_id) = inr f ->
    fst (subprocess_run w (probe_cmd f)) = inr p ->
    splits !! i = Some split ->
    verdict (duration_of p) split = Escapes e ->
    exists e' sys',
      split_video w video_url splits job_id settings sys = (inl e', sys') /\
      (exists j sp, splits !! j = Some sp /\
                    verdict (duration_of p) sp = Escapes e') /\
      trace sys' = (trace sys ++ [probe_cmd f])%list /\
      forall x,
        x ∈ files sys' <->
        x ∈ files (after_run w (acquired w video_url job_id sys) (probe_cmd f)) /\
        x <> f.
Proof.
  intros w video_url splits job_id settings sys f p i split e Hdl Hp Hi Hv.
  destruct (validation_escape_try w settings (effective_job_id w job_id) splits f
              (frame0 w video_url splits job_id sys) p i split e
              (frame0_length w video_url splits job_id sys) Hp Hi Hv)
    as (e' & fr' & Htry & Hsys & Hrs & Hcause).
  exists e'. eexists. split.
  { rewrite split_video_unfold, Hdl, Htry. reflexivity. }
  split; [exact Hcause|]. cbn [trace files]. rewrite Hsys. split; [reflexivity|].
  intros x. rewrite elem_of_cleanup. split.
  - intros (Hx & Hne & _). auto.
  - intros (Hx & Hne). repeat split; try assumption.
    intros r Hr (Hst & _). destruct (Hrs r Hr) as [H0|Herr]; [|congruence].
    apply frame0_results in H0. subst r. discriminate Hst.
Qed.

(** A start whose hours field has 401 digits, ahead of a valid request:
    the operation fails with the [OverflowError] and nothing is encoded. *)
Lemma uncaught_validation_error_fails_the_operation_witness :
  exists e' sys',
    split_video example_world "https://example.org/v.mp4"
      [mkSplit "0" "10"; mkSplit ("1" ++ zeros 400 ++ ":00:00") "5"]
      (Some "job") example_settings example_sys = (inl e', sys') /\
    trace sys' = [probe_cmd "/tmp/job_input.mp4"].
Proof.
  destruct (uncaught_validation_error_fails_the_operation example_world
              "https://example.org/v.mp4"
              [mkSplit "0" "10"; mkSplit ("1" ++ zeros 400 ++ ":00:00") "5"]
              (Some "job") example_settings example_sys
              "/tmp/job_input.mp4" (mkProcess 0 "60.000000" "")
              1%nat (mkSplit ("1" ++ zeros 400 ++ ":00:00") "5")
              (mkExn OverflowError "int too large to convert to float"))
    as (e' & sys' & Hrun & _ & Htr & _).
  - vm_compute. reflexivity.
  - vm_compute. reflexivity.
  - reflexivity.
  - vm_compute. reflexivity.
  - exists e', sys'. split; [exact Hrun | exact Htr].
Defined.

(** ** The bounds handed to the encoder *)

Lemma SFcompare_refl_not_Gt f : SFcompare f f <> Some Gt.
Proof.
  destruct f as [s|s| |s m e]; simpl; try (destruct s; discriminate); try discriminate.
  destruct s; rewrite Z.compare_refl, Pos.compare_cont_refl; discriminate.
Qed.

Lemma gt_irrefl x : PyArith.gt x x = false.
Proof.
  unfold PyArith.gt, PyArith.compare. destruct x as [n|f].
  - now rewrite Z.compare_refl.
  - destruct (SFcompare f f) as [[]|] eqn:Hc; try reflexivity.
    now apply SFcompare_refl_not_Gt in Hc.
Qed.

Lemma accepted_bounds file_duration split s e :
  verdict file_duration split = Accepted s e ->
  PyArith.lt s e = true /\
  PyArith.lt s (PyNum.PyInt 0) = false /\
  PyArith.gt e file_duration = false.
Proof.
  unfold verdict, verdict_of_exn.
  destruct (time_to_seconds (split_start split)) as [e1|s0];
    [destruct (catches _ e1); discriminate|].
  destruct (time_to_seconds (split_end split)) as [e2|e0];
    [destruct (catches _ e2); discriminate|].
  destruct (PyArith.lt _ _) eqn:Hlt; [|discriminate].
  intros [= <- <-]. split; [exact Hlt|]. split.
  - unfold normalize_start. destruct (PyArith.lt s0 (PyNum.PyInt 0)) eqn:H0;
      [reflexivity | exact H0].
  - unfold normalize_end. destruct (PyArith.gt e0 file_duration) eqn:Hg;
      [apply gt_irrefl | exact Hg].
Qed.

(** X6.  Whether [split_video] returns or raises, every encoder command it
    runs cuts a range that is in order and inside the source: its start
    is not below 0, its start is below its end, and its end is not above
    the duration in use. *)
Theorem encoder_bounds_are_in_range :
  forall w video_url splits job_id settings sys f p,
    fst (download_of w video_url job_id) = inr f ->
    fst (subprocess_run w (probe_cmd f)) = inr p ->
    exists ran,
      trace (snd (split_video w video_url splits job_id settings sys))
        = (trace sys ++ probe_cmd f :: ran)%list /\
      forall c, c ∈ ran ->
        exists j s e,
          c = encode_cmd settings f
                (output_filename_of w (effective_job_id w job_id)
                   (PosixPath.splitext_ext f) j) s e /\
          PyArith.lt s (PyNum.PyInt 0) = false /\
          PyArith.lt s e = true /\
          PyArith.gt e (duration_of p) = false.
Proof.
  intros w video_url splits job_id settings sys f p Hdl Hp.
  assert (Hcmd : forall c,
            c ∈ encode_cmds w settings (effective_job_id w job_id) f
                  (duration_of p) splits ->
            exists j s e,
              c = encode_cmd settings f
                    (output_filename_of w (effective_job_id w job_id)
                       (PosixPath.splitext_ext f) j) s e /\
              PyArith.lt s (PyNum.PyInt 0) = false /\
              PyArith.lt s e = true /\
              PyArith.gt e (duration_of p) = false).
  { intros c Hc.
    apply encode_cmds_elem in Hc as (j & sp & s & e & _ & Hv & ->).
    apply accepted_bounds in Hv as (Hlt & H0 & Hg).
    exists j, s, e. auto. }
  pose proof (split_video_spec w video_url splits job_id settings sys) as Hspec.
  destruct (split_video _ _ _ _ _ sys) as [[x|[rs f']] sys']; cbn [snd].
  - destruct Hspec as [[Hdl' _]|(f' & Hdl' & _ & done & Htr & Hdone)]; [congruence|].
    assert (f' = f) as -> by congruence.
    exists done. split; [exact Htr|].
    intros c Hc. destruct (Hdone c Hc) as (p' & Hp' & Hc').
    assert (p' = p) as -> by congruence. now apply Hcmd.
  - destruct Hspec as (p' & Hdl' & Hp' & _ & Hsys & _).
    assert (f' = f) as -> by congruence.
    assert (p' = p) as -> by congruence.
    exists (encode_cmds w settings (effective_job_id w job_id) f (duration_of p) splits).
    split; [|exact Hcmd].
    rewrite Hsys, fold_left_after_run_files_trace. reflexivity.
Qed.

(** On the example, with a duration of one minute, four commands are
    run: the probe and three encoder commands. *)
Lemma encoder_bounds_are_in_range_witness :
  exists ran,
    trace (snd (split_video example_world "https://example.org/v.mp4" example_splits
                  (Some "job") example_settings example_sys))
      = ([] ++ probe_cmd "/tmp/job_input.mp4" :: ran)%list /\
    length ran = 3%nat.
Proof.
  destruct (encoder_bounds_are_in_range example_world "https://example.org/v.mp4"
              example_splits (Some "job") example_settings example_sys
              "/tmp/job_input.mp4" (mkProcess 0 "60.000000" ""))
    as (ran & Htr & _).
  - vm_compute. reflexivity.
  - vm_compute. reflexivity.
  - exists ran. split; [exact Htr|].
    apply (f_equal (@length _)) in Htr. rewrite length_app in Htr.
    cbn [length trace example_sys] in Htr.
    assert (Hn : length (trace (snd (split_video example_world
                  "https://example.org/v.mp4" example_splits (Some "job")
                  example_settings example_sys))) = 4%nat)
      by (vm_compute; reflexivity).
    rewrite Hn in Htr. simpl in Htr. lia.
Defined.

(** ** What the handler leaves and reports *)

Lemma returned_slot_settled w video_url splits job_id settings sys rs f i r :
  fst (split_video w video_url splits job_id settings sys) = inr (rs, f) ->
  rs !! i = Some r ->
  settled_result w (effective_job_id w job_id) (PosixPath.splitext_ext f) i r.
Proof.
  intros Hfst Hi.
  pose proof (split_video_spec w video_url splits job_id settings sys) as Hspec.
  destruct (split_video _ _ _ _ _ sys) as [[x|[rs0 f0]] sys'];
    cbn [fst] in Hfst; [discriminate Hfst|].
  injection Hfst as -> ->.
  destruct Hspec as (p & _ & _ & Hlen & _ & Hall).
  assert (Hlt : (i < length splits)%nat)
    by (rewrite <- Hlen; eapply lookup_lt_Some; eauto).
  apply lookup_lt_is_Some_2 in Hlt as [split Hsplit].
  destruct (Hall i split Hsplit) as (r' & Hout & Hr').
  assert (r' = r) as -> by congruence.
  eapply segment_outcome_settled; eauto.
Qed.

(** X7.  After a run of the handler in which the download returned a
    file, that file does not exist any more, whether the answer is 200 or
    500: on return the handler removes it, on an exception [split_video]
    does. *)
Theorem source_file_never_remains :
  forall w job_id data sys f,
    fst (download_of w (d_video_url data) (Some job_id)) = inr f ->
    f ∉ files (snd (video_split w job_id data sys)).
Proof.
  intros w job_id data sys f Hdl.
  pose proof (split_video_unfold w (d_video_url data) (d_splits data) (Some job_id)
                (settings_of data) sys) as Hunf.
  pose proof (video_split_spec w job_id data sys) as Hh.
  rewrite Hdl in Hunf.
  destruct (split_video _ _ _ _ _ sys) as [[e|[rs f']] sys1].
  - rewrite Hh. cbn [snd].
    destruct (split_video_try _ _ _ _ _ _) as [[e2|r2] fr]; [|discriminate Hunf].
    injection Hunf as _ ->. cbn [files].
    intros Hin. apply elem_of_cleanup in Hin as (_ & Hne & _). congruence.
  - destruct (split_video_try _ _ _ _ _ _) as [[e2|r2] fr] eqn:Htry;
      [discriminate Hunf|].
    injection Hunf as Hr2 _. subst r2.
    pose proof (split_video_try_spec w (settings_of data)
                  (effective_job_id w (Some job_id)) (d_splits data) f
                  (frame0 w (d_video_url data) (d_splits data) (Some job_id) sys)
                  (frame0_length _ _ _ _ _) eq_refl) as Htspec.
    rewrite Htry in Htspec. destruct Htspec as (p & _ & Hf & _). subst f'.
    destruct Hh as (resp & sys2 & Hvs & Hgone & _). rewrite Hvs. exact Hgone.
Qed.

(** On the world where the encoder cannot be started the handler answers
    500, and the source file is gone. *)
Lemma source_file_never_remains_witness :
  "/tmp/job_input.mp4"
  ∉ files (snd (video_split crashing_world "job"
                  (mkData "https://example.org/v.mp4" example_splits
                     None None None None None) example_sys)).
Proof.
  apply source_file_never_remains. vm_compute. reflexivity.
Defined.

(** X8.  When the upload of an encoded output raises, the handler still
    answers 200; the item of that request has no [file_url] and the error
    "Upload failed: " followed by the message of the exception. *)
Theorem upload_failure_is_reported_in_its_item :
  forall w job_id data sys rs f k split r path e,
    fst (split_video w (d_video_url data) (d_splits data) (Some job_id)
           (settings_of data) sys) = inr (rs, f) ->
    d_splits data !! k = Some split ->
    rs !! k = Some r ->
    status r = ok ->
    output_file r = Some path ->
    fst (upload_file w path) = inl e ->
    exists resp,
      fst (video_split w job_id data sys)
        = (Response resp, "/v1/video/split", 200) /\
      resp !! k
        = Some (mkItem k (split_start split) (split_end split) None
                  (Some (Some ("Upload failed: " ++ exn_str e)))).
Proof.
  intros w job_id data sys rs f k split r path e Hrun Hk Hr Hok Hpath Hup.
  pose proof (returned_slot_settled _ _ _ _ _ _ _ _ k r Hrun Hr) as Hset.
  pose proof (video_split_spec w job_id data sys) as Hh.
  destruct (split_video _ _ _ _ _ sys) as [[x|[rs0 f0]] sys1];
    cbn [fst] in Hrun; [discriminate Hrun|].
  injection Hrun as -> ->.
  destruct Hh as (resp & sys2 & -> & _ & _ & _ & Hitems).
  exists resp. split; [reflexivity|].
  rewrite (Hitems k split r Hk Hr). f_equal. unfold response_item.
  assert (Htruthy : truthy (output_file r) = true).
  { destruct Hset as [->|(msg & -> & _)]; [|discriminate Hok].
    cbn [output_file truthy].
    remember (output_filename_of _ _ _ _) as out eqn:Hout.
    destruct (String.eqb out "") eqn:Hempty; [|reflexivity].
    apply String.eqb_eq in Hempty. subst out.
    now apply output_filename_of_nonempty in Hempty. }
  rewrite Htruthy, bool_decide_eq_true_2 by exact Hok.
  rewrite Hpath. cbn [andb from_option id]. now rewrite Hup.
Qed.

Lemma upload_failure_is_reported_in_its_item_witness :
  exists resp,
    fst (video_split refusing_world "job"
           (mkData "https://example.org/v.mp4" example_splits
              None None None None None) example_sys)
      = (Response resp, "/v1/video/split", 200) /\
    resp !! 0%nat
      = Some (mkItem 0 "0" "10" None
                (Some (Some "Upload failed: storage unreachable"))).
Proof.
  destruct (fst (split_video refusing_world "https://example.org/v.mp4" example_splits
                   (Some "job")
                   (settings_of (mkData "https://example.org/v.mp4" example_splits
                                   None None None None None))
                   example_sys)) as [x|[rs f]] eqn:Hrun.
  { exfalso. vm_compute in Hrun. discriminate Hrun. }
  assert (Hr : rs !! 0%nat = Some (mkResult ok (Some "/tmp/job_split_1.mp4") None)).
  { vm_compute in Hrun. injection Hrun as <- _. reflexivity. }
  apply (upload_failure_is_reported_in_its_item refusing_world "job"
           (mkData "https://example.org/v.mp4" example_splits None None None None None)
           example_sys rs f 0%nat (mkSplit "0" "10") _ "/tmp/job_split_1.mp4"
           (mkExn (OtherError "ConnectionError") "storage unreachable")
           Hrun eq_refl Hr eq_refl eq_refl).
  vm_compute. reflexivity.
Defined.

(** X9.  Every item of a 200 response carries a [file_url] or an error,
    never both and never neither, and its error is a string, not Python's
    [None]; a [file_url] is only given for a result that is ok. *)
Theorem response_items_have_url_or_error :
  forall w job_id data sys rs f resp k item,
    fst (split_video w (d_video_url data) (d_splits data) (Some job_id)
           (settings_of data) sys) = inr (rs, f) ->
    fst (video_split w job_id data sys) = (Response resp, "/v1/video/split", 200) ->
    resp !! k = Some item ->
    exists r,
      rs !! k = Some r /\
      ((exists cloud_url,
          item_file_url item = Some cloud_url /\ item_error item = None /\
          status r = ok) \/
       (exists msg,
          item_file_url item = None /\ item_error item = Some (Some msg))).
Proof.
  intros w job_id data sys rs f resp k item Hrun Hresp Hk.
  pose proof (split_video_spec w (d_video_url data) (d_splits data) (Some job_id)
                (settings_of data) sys) as Hspec.
  pose proof (video_split_spec w job_id data sys) as Hh.
  assert (Hset : forall i r, rs !! i = Some r ->
            settled_result w (effective_job_id w (Some job_id))
              (PosixPath.splitext_ext f) i r).
  { intros i r Hi. eapply returned_slot_settled; eauto. }
  destruct (split_video _ _ _ _ _ sys) as [[x|[rs0 f0]] sys1];
    cbn [fst] in Hrun; [discriminate Hrun|].
  injection Hrun as -> ->.
  destruct Hspec as (p & _ & _ & Hlen & _ & _).
  destruct Hh as (resp' & sys2 & Hvs & _ & _ & Hl & Hitems).
  rewrite Hvs in Hresp. cbn [fst] in Hresp. injection Hresp as ->.
  assert (Hlt : (k < length (d_splits data))%nat)
    by (rewrite <- Hl; eapply lookup_lt_Some; eauto).
  destruct (lookup_lt_is_Some_2 (d_splits data) k Hlt) as [split Hsplit].
  destruct (lookup_lt_is_Some_2 rs k ltac:(lia)) as [r Hr].
  exists r. split; [exact Hr|].
  rewrite (Hitems k split r Hsplit Hr) in Hk. injection Hk as <-.
  unfold response_item.
  destruct (Hset k r Hr) as [->|(msg & -> & _)].
  - destruct (bool_decide _ && truthy _) eqn:Hcond.
    + destruct (fst (upload_file w _)) as [e|url]; cbn.
      * right. eexists. split; reflexivity.
      * left. eexists. repeat split; reflexivity.
    + exfalso. cbn [status output_file truthy] in Hcond.
      rewrite bool_decide_eq_true_2 in Hcond by reflexivity.
      remember (output_filename_of _ _ _ _) as out eqn:Hout.
      destruct (String.eqb out "") eqn:Hempty; [|discriminate Hcond].
      apply String.eqb_eq in Hempty. subst out.
      now apply output_filename_of_nonempty in Hempty.
  - cbn. right. eexists. split; reflexivity.
Qed.

(** The second item of the example carries the encoder's error. *)
Lemma response_items_have_url_or_error_witness :
  exists (resp : list ResponseItem) item r,
    resp !! 1%nat = Some item /\
    item_file_url item = None /\
    item_error item = Some (Some "FFmpeg error: moov atom not found") /\
    status r = error.
Proof.
  pose (data := mkData "https://example.org/v.mp4" example_splits
                  None None None None None).
  destruct (fst (split_video example_world (d_video_url data) (d_splits data)
                   (Some "job") (settings_of data) example_sys))
    as [x|[rs f]] eqn:Hrun.
  { exfalso. vm_compute in Hrun. discriminate Hrun. }
  destruct (fst (video_split example_world "job" data example_sys))
    as [[[resp|msg] ep] code] eqn:Hresp;
    [|exfalso; vm_compute in Hresp; discriminate Hresp].
  assert (Hep : ep = "/v1/video/split" /\ code = 200 /\
                resp !! 1%nat
                = Some (mkItem 1 "-5" "20" None
                          (Some (Some "FFmpeg error: moov atom not found")))).
  { vm_compute in Hresp. injection Hresp as <- <- <-. repeat split; reflexivity. }
  destruct Hep as (-> & -> & Hitem).
  destruct (response_items_have_url_or_error example_world "job" data example_sys
              rs f resp 1%nat _ Hrun Hresp Hitem) as (r & Hr & _).
  assert (Hst : status r = error).
  { vm_compute in Hrun. injection Hrun as <- _. now injection Hr as <-. }
  eexists resp, _, r. split; [exact Hitem|]. repeat split. exact Hst.
Defined.

(** ** The local files after a 200 answer *)

Section QuietUploads.
Variable w : World.

(** Uploading reads the local file and changes no local file. *)
Hypothesis upload_is_quiet : forall path fs, snd (upload_file w path) fs = fs.

Lemma remove_quietly_files p (fr : HandlerFrame) :
  exists sys',
    try_except None (os_remove p) (fun _ => ret tt) fr
      = (inr tt, mkHandlerFrame sys' (response fr)) /\
    forall x, x ∈ files sys' <-> x ∈ files (h_sys fr) /\ x <> p.
Proof.
  unfold try_except, os_remove, with_files, ret; simpl.
  case_bool_decide as Hp; simpl.
  - eexists. split; [reflexivity|]. simpl. intros x.
    rewrite elem_of_difference, elem_of_singleton. reflexivity.
  - exists (h_sys fr). destruct fr; simpl in *. split; [reflexivity|].
    intros x. split; [|tauto]. intros Hx. split; [assumption | congruence].
Qed.

Lemma upload_output_files item path fr :
  exists sys' item',
    upload_output w item path fr = (inr item', mkHandlerFrame sys' (response fr)) /\
    forall x,
      x ∈ files sys' <->
      x ∈ files (h_sys fr) /\
      ((exists cloud_url, fst (upload_file w path) = inr cloud_url) -> x <> path).
Proof.
  unfold upload_output, try_except at 1, bind at 1, call at 1.
  unfold with_files. cbn [get_sys set_sys HandlerFrame_HasSys h_sys response].
  rewrite upload_is_quiet.
  destruct (fst (upload_file w path)) as [e|url].
  - unfold ret. cbn. eexists _, _. split; [reflexivity|]. cbn.
    intros x. split; [|tauto]. intros Hx. split; [assumption|].
    intros [u Hu]. discriminate Hu.
  - unfold bind at 1.
    match goal with
    | |- context [try_except None (os_remove path) _ ?x] =>
        destruct (remove_quietly_files path x) as (sys' & Hrm & Hfiles)
    end.
    rewrite Hrm. unfold ret. eexists _, _. split; [reflexivity|].
    intros x. rewrite Hfiles. cbn. split.
    + intros [Hx Hne]. auto.
    + intros [Hx Hne]. split; [assumption|]. apply Hne. eauto.
Qed.

Lemma respond_files splits idx r split fr :
  splits !! idx = Some split ->
  exists sys',
    respond w splits (idx, r) fr
      = (inr tt,
         mkHandlerFrame sys' (response fr ++ [response_item w idx split r])%list) /\
    forall x,
      x ∈ files sys' <->
      x ∈ files (h_sys fr) /\ (forall path, uploaded w r path -> x <> path).
Proof.
  intros Hidx.
  destruct (respond_spec w splits idx r split fr Hidx) as (sys0 & Hresp & _).
  unfold respond, list_get in *. rewrite Hidx in *.
  unfold bind at 1, ret at 1 in Hresp. unfold bind at 1 in Hresp.
  unfold bind at 1, ret at 1. unfold bind at 1.
  unfold response_item in *.
  destruct (bool_decide (status r = ok) && truthy (output_file r)) eqn:Hcond.
  - apply andb_true_iff in Hcond as [Hok Htr]. apply bool_decide_eq_true in Hok.
    destruct (output_file r) as [path|] eqn:Hpath; [|discriminate Htr].
    cbn [from_option id] in *.
    assert (Hne : path <> "").
    { intros ->. discriminate Htr. }
    destruct (upload_output_files
                (mkItem idx (split_start split) (split_end split) None None)
                path fr) as (sys' & item' & Hup & Hfiles).
    rewrite Hup in Hresp. rewrite Hup.
    unfold append_response in *. cbn in *.
    injection Hresp as _ Hitem. apply app_inv_head in Hitem. injection Hitem as ->.
    exists sys'. split; [reflexivity|].
    intros x. rewrite Hfiles. split.
    + intros [Hx Hnp]. split; [assumption|].
      intros path' (_ & Hp' & _ & Hex). rewrite Hpath in Hp'.
      injection Hp' as <-. auto.
    + intros [Hx Hall]. split; [assumption|].
      intros Hex. apply Hall. repeat split; assumption.
  - unfold ret, append_response. cbn. exists (h_sys fr). split; [reflexivity|].
    intros x. split; [|tauto]. intros Hx. split; [assumption|].
    intros path (Hok & Hpath & Hne & _).
    rewrite Hpath in Hcond. cbn [truthy] in Hcond.
    rewrite bool_decide_eq_true_2 in Hcond by exact Hok.
    apply String.eqb_neq in Hne. rewrite Hne in Hcond. discriminate Hcond.
Qed.

Lemma respond_loop_files splits rs : forall i0 fr,
  (i0 + length rs <= length splits)%nat ->
  exists sys' items,
    for_each (zip (seq i0 (length rs)) rs) (respond w splits) fr
      = (inr tt, mkHandlerFrame sys' (response fr ++ items)%list) /\
    forall x,
      x ∈ files sys' <->
      x ∈ files (h_sys fr) /\
      (forall k r path, rs !! k = Some r -> uploaded w r path -> x <> path).
Proof.
  induction rs as [|r rs IH]; intros i0 fr Hlen.
  - exists (h_sys fr), []. simpl. unfold ret. rewrite app_nil_r.
    destruct fr; simpl. split; [reflexivity|].
    intros x. split; [|tauto]. intros Hx. split; [assumption|].
    intros k r path Hk. rewrite lookup_nil in Hk. discriminate.
  - simpl in Hlen. rewrite zip_seq_cons. cbn [for_each]. unfold bind at 1.
    destruct (lookup_lt_is_Some_2 splits i0 ltac:(lia)) as [split0 Hsp0].
    destruct (respond_files splits i0 r split0 fr Hsp0) as (sys1 & -> & Hf1).
    destruct (IH (S i0) (mkHandlerFrame sys1
                           (response fr ++ [response_item w i0 split0 r])%list)
                ltac:(lia)) as (sys2 & items & -> & Hf2).
    exists sys2, (response_item w i0 split0 r :: items). split.
    { cbn. now rewrite <- app_assoc. }
    intros x. rewrite Hf2. cbn [h_sys]. rewrite Hf1. split.
    + intros [[Hx Hhead] Htail]. split; [assumption|].
      intros [|k] r' path Hk Hup; simpl in Hk.
      * injection Hk as <-. now apply Hhead.
      * eapply Htail; eauto.
    + intros [Hx Hall]. split; [split; [assumption|]|].
      * intros path Hup. apply (Hall 0%nat r path eq_refl Hup).
      * intros k r' path Hk Hup. apply (Hall (S k) r' path Hk Hup).
Qed.

End QuietUploads.

(** X10.  When uploading changes no local file, the local files after a
    200 answer are those that [split_video] left, less the source and
    less every output whose upload returned; an output whose upload
    raised is not removed. *)
Theorem local_files_after_success :
  forall w job_id data sys rs f sys1,
    (forall path fs, snd (upload_file w path) fs = fs) ->
    split_video w (d_video_url data) (d_splits data) (Some job_id)
      (settings_of data) sys = (inr (rs, f), sys1) ->
    forall x,
      x ∈ files (snd (video_split w job_id data sys)) <->
      x ∈ files sys1 /\ x <> f /\
      (forall k r path, rs !! k = Some r -> uploaded w r path -> x <> path).
Proof.
  intros w job_id data sys rs f sys1 Hquiet Hsv x.
  pose proof (split_video_spec w (d_video_url data) (d_splits data) (Some job_id)
                (settings_of data) sys) as Hspec.
  rewrite Hsv in Hspec. destruct Hspec as (p & _ & _ & Hlen & _ & _).
  unfold video_split, video_split_try. unfold bind at 1.
  rewrite on_sys_handler, Hsv. unfold bind at 1.
  destruct (respond_loop_files w Hquiet (d_splits data) rs 0 (mkHandlerFrame sys1 [])
              ltac:(simpl; lia)) as (sysa & items & Hloop & Hfa).
  fold (enumerate rs) in Hloop. rewrite Hloop. unfold bind at 1.
  match goal with
  | |- context [try_except None (os_remove f) _ ?y] =>
      destruct (remove_quietly_files f y) as (sysb & Hrm & Hfb)
  end.
  rewrite Hrm. unfold bind, get_response, ret. cbn [snd h_sys].
  rewrite Hfb. cbn [h_sys]. rewrite Hfa. cbn [h_sys]. tauto.
Qed.

(** When the storage service refuses the first output of the example,
    that output stays on the local disk; the fifth one, which is
    uploaded, does not. *)
Lemma local_files_after_success_witness :
  "/tmp/job_split_1.mp4"
  ∈ files (snd (video_split refusing_world "job"
                  (mkData "https://example.org/v.mp4" example_splits
                     None None None None None) example_sys)) /\
  "/tmp/job_split_5.mp4"
  ∉ files (snd (video_split refusing_world "job"
                  (mkData "https://example.org/v.mp4" example_splits
                     None None None None None) example_sys)).
Proof.
  pose (data := mkData "https://example.org/v.mp4" example_splits
                  None None None None None).
  destruct (split_video refusing_world (d_video_url data) (d_splits data)
              (Some "job") (settings_of data) example_sys)
    as [[e|[rs f]] sys1] eqn:Hsv.
  { exfalso. apply (f_equal fst) in Hsv. cbn [fst] in Hsv.
    vm_compute in Hsv. discriminate Hsv. }
  assert (Hquiet : forall path fs, snd (upload_file refusing_world path) fs = fs).
  { intros path fs. cbn. destruct (String.eqb path _); reflexivity. }
  assert (Hrs : rs = [mkResult ok (Some "/tmp/job_split_1.mp4") None;
                      mkResult error None (Some "FFmpeg error: moov atom not found");
                      mkResult error None
                        (Some "Invalid split: start (10) must be before end (5) within duration");
                      mkResult error None
                        (Some "Invalid time format: abc. Expected HH:MM:SS[.mmm]");
                      mkResult ok (Some "/tmp/job_split_5.mp4") None] /\
                f = "/tmp/job_input.mp4").
  { apply (f_equal fst) in Hsv. cbn [fst] in Hsv. vm_compute in Hsv.
    injection Hsv as <- <-. split; reflexivity. }
  destruct Hrs as [-> ->].
  assert (Hfiles : "/tmp/job_split_1.mp4" ∈ files sys1).
  { assert (Hb : bool_decide
                     ("/tmp/job_split_1.mp4"
                      ∈ files (snd (split_video refusing_world (d_video_url data)
                                      (d_splits data) (Some "job") (settings_of data)
                                      example_sys))) = true)
      by (vm_compute; reflexivity).
    apply bool_decide_eq_true in Hb. rewrite Hsv in Hb. exact Hb. }
  pose proof (local_files_after_success refusing_world "job" data example_sys
                _ _ sys1 Hquiet Hsv) as Hmem.
  split.
  - apply Hmem. split; [exact Hfiles|]. split; [discriminate|].
    intros k r path Hk (Hok & Hpath & _ & url & Hup) <-.
    vm_compute in Hup. discriminate Hup.
  - intros Hin. apply Hmem in Hin as (_ & _ & Hall).
    apply (Hall 4%nat (mkResult ok (Some "/tmp/job_split_5.mp4") None)
             "/tmp/job_split_5.mp4" eq_refl); [|reflexivity].
    repeat split; try discriminate.
    eexists. vm_compute. reflexivity.
Defined.

(** ** Strings with a colon are not floats *)

Lemma colon_not_digit c : PyStr.is_digit c = true -> Ascii.eqb c ":" = false.
Proof. destruct c as [[] [] [] [] [] [] [] []]; (reflexivity || discriminate). Qed.

Lemma colon_not_space c : PyStr.is_numeric_space c = true -> Ascii.eqb c ":" = false.
Proof. destruct c as [[] [] [] [] [] [] [] []]; (reflexivity || discriminate). Qed.

Lemma colon_lower c : Ascii.eqb (PyStr.lower c) ":" = Ascii.eqb c ":".
Proof. destruct c as [[] [] [] [] [] [] [] []]; reflexivity. Qed.

Lemma contains_lstrip s :
  contains ":" (PyStr.lstrip_by PyStr.is_numeric_space s) = contains ":" s.
Proof.
  induction s as [|c s IH]; [reflexivity|]. simpl.
  destruct (PyStr.is_numeric_space c) eqn:Hsp; [|reflexivity].
  now rewrite IH, (colon_not_space c Hsp).
Qed.

Lemma contains_rstrip s :
  contains ":" (PyStr.rstrip_by PyStr.is_numeric_space s) = contains ":" s.
Proof.
  induction s as [|c s IH]; [reflexivity|]. simpl.
  destruct (PyStr.rstrip_by PyStr.is_numeric_space s) as [|d r] eqn:Hr.
  - simpl in IH. rewrite <- IH.
    destruct (PyStr.is_numeric_space c) eqn:Hsp; simpl.
    + now rewrite (colon_not_space c Hsp).
    + now rewrite orb_false_r.
  - simpl in *. now rewrite <- IH.
Qed.

Lemma contains_remove_underscores s :
  contains ":" (PyNum.remove_underscores s) = contains ":" s.
Proof.
  induction s as [|c s IH]; [reflexivity|]. simpl.
  destruct (Ascii.eqb c "_") eqn:Hu; simpl; rewrite IH; [|reflexivity].
  apply Ascii.eqb_eq in Hu. subst c. reflexivity.
Qed.

Lemma contains_take_sign s :
  contains ":" (snd (PyNum.take_sign s)) = contains ":" s.
Proof.
  destruct s as [|c s]; [reflexivity|].
  destruct c as [[] [] [] [] [] [] [] []]; reflexivity.
Qed.

Lemma contains_span_digits s :
  contains ":" (snd (PyNum.span_digits s)) = contains ":" s.
Proof.
  induction s as [|c s IH]; [reflexivity|]. simpl.
  destruct (PyStr.is_digit c) eqn:Hd; [|reflexivity].
  destruct (PyNum.span_digits s) as [d r]. simpl in *.
  now rewrite IH, (colon_not_digit c Hd).
Qed.

Lemma contains_lower_string s :
  contains ":" (PyStr.lower_string s) = contains ":" s.
Proof.
  induction s as [|c s IH]; [reflexivity|]. simpl. now rewrite IH, colon_lower.
Qed.

Lemma parse_exponent_no_colon s ex :
  PyNum.parse_exponent s = Some ex -> contains ":" s = false.
Proof.
  destruct s as [|c s]; [reflexivity|]. unfold PyNum.parse_exponent.
  destruct (Ascii.eqb (PyStr.lower c) "e") eqn:He; [|discriminate].
  pose proof (contains_take_sign s) as Hsign.
  destruct (PyNum.take_sign s) as [neg body]. cbn [snd] in Hsign.
  pose proof (contains_span_digits body) as Hspan.
  destruct (PyNum.span_digits body) as [d r]. cbn [snd] in Hspan.
  destruct d; [discriminate|]. destruct r; [|discriminate]. intros _.
  cbn [contains]. rewrite <- Hsign, <- Hspan. cbn [contains].
  rewrite orb_false_r, <- colon_lower.
  apply Ascii.eqb_eq in He. now rewrite He.
Qed.

Lemma parse_decimal_no_colon neg s f :
  PyNum.parse_decimal neg s = Some f -> contains ":" s = false.
Proof.
  unfold PyNum.parse_decimal.
  pose proof (contains_span_digits s) as H1.
  destruct (PyNum.span_digits s) as [ip r1]. cbn [snd] in H1. rewrite <- H1.
  assert (H2 : forall fp r2,
            match r1 with
            | String "." r => PyNum.span_digits r
            | _ => (EmptyString, r1)
            end = (fp, r2) -> contains ":" r2 = contains ":" r1).
  { intros fp r2. destruct r1 as [|c r]; [now intros [= <- <-]|].
    pose proof (contains_span_digits r) as Hr.
    destruct c as [[] [] [] [] [] [] [] []]; try (now intros [= <- <-]).
    intros Heq. rewrite Heq in Hr. cbn [snd] in Hr. rewrite Hr. reflexivity. }
  destruct (match r1 with String "." r => _ | _ => _ end) as [fp r2].
  specialize (H2 fp r2 eq_refl). rewrite <- H2.
  destruct (ip ++ fp); [discriminate|].
  destruct (PyNum.parse_exponent r2) as [ex|] eqn:Hex; [|discriminate].
  intros _. eapply parse_exponent_no_colon; eauto.
Qed.

Lemma parse_inf_or_nan_no_colon neg s f :
  PyNum.parse_inf_or_nan neg s = Some f -> contains ":" s = false.
Proof.
  unfold PyNum.parse_inf_or_nan. rewrite <- contains_lower_string.
  destruct (String.eqb (PyStr.lower_string s) "inf") eqn:H1.
  { apply String.eqb_eq in H1. now rewrite H1. }
  destruct (String.eqb (PyStr.lower_string s) "infinity") eqn:H2.
  { apply String.eqb_eq in H2. now rewrite H2. }
  destruct (String.eqb (PyStr.lower_string s) "nan") eqn:H3; [|discriminate].
  apply String.eqb_eq in H3. now rewrite H3.
Qed.

Lemma py_float_no_colon s f :
  PyNum.py_float s = Some f -> contains ":" s = false.
Proof.
  unfold PyNum.py_float. destruct (PyNum.underscores_ok None s); [|discriminate].
  rewrite <- (contains_remove_underscores s).
  unfold PyStr.numeric_strip.
  rewrite <- (contains_lstrip (PyNum.remove_underscores s)).
  rewrite <- (contains_rstrip (PyStr.lstrip_by _ _)).
  pose proof (contains_take_sign
                (PyStr.rstrip_by PyStr.is_numeric_space
                   (PyStr.lstrip_by PyStr.is_numeric_space
                      (PyNum.remove_underscores s)))) as Hsign.
  destruct (PyNum.take_sign _) as [neg body]. cbn [snd] in Hsign. rewrite <- Hsign.
  destruct (PyNum.parse_decimal neg body) as [g|] eqn:Hdec.
  - intros _. eapply parse_decimal_no_colon; eauto.
  - apply parse_inf_or_nan_no_colon.
Qed.

Lemma split_colon_fields s :
  (2 <= length (PyStr.split ":" s))%nat -> contains ":" s = true.
Proof.
  induction s as [|c s IH]; simpl; [lia|].
  destruct (Ascii.eqb c ":") eqn:Hc; [reflexivity|]. simpl.
  destruct (PyStr.split ":" s) as [|p ps]; simpl in *; [lia | exact IH].
Qed.

(** X11.  A timestamp with more than three colon-separated fields is
    always refused with the "Invalid time format" [ValueError]: the whole
    string is then read as one float, and no float contains a colon. *)
Theorem more_than_three_fields_is_invalid :
  forall time_str,
    (3 < length (PyStr.split ":" time_str))%nat ->
    time_to_seconds time_str
      = inl (mkExn ValueError
               ("Invalid time format: " ++ time_str ++ ". Expected HH:MM:SS[.mmm]")).
Proof.
  intros time_str Hlen.
  assert (Hnone : PyNum.py_float time_str = None).
  { destruct (PyNum.py_float time_str) as [f|] eqn:Hf; [|reflexivity].
    apply py_float_no_colon in Hf.
    rewrite split_colon_fields in Hf by lia. discriminate Hf. }
  unfold time_to_seconds, float_.
  destruct (PyStr.split ":" time_str) as [|a [|b [|c [|d l]]]];
    simpl in Hlen; try lia.
  rewrite Hnone. reflexivity.
Qed.

(** A timestamp with a days field. *)
Lemma more_than_three_fields_is_invalid_witness :
  time_to_seconds "1:02:03:04"
    = inl (mkExn ValueError "Invalid time format: 1:02:03:04. Expected HH:MM:SS[.mmm]").
Proof.
  apply (more_than_three_fields_is_invalid "1:02:03:04"). simpl. lia.
Defined.
